(** * FaceAnalysisApp: the landmark-to-report analysis pipeline

    A shallow embedding of [backend/app/services/analysis.py] together with
    the properties its specification states about it.

    Numbers.  Python [float] and NumPy [float64] values are modelled by the
    real numbers of the Standard Library: every arithmetic operation is the
    exact one, so rounding and overflow are abstracted away.  What is kept
    is everything the code decides by comparison, the order in which it
    decides it, and what happens on a division by an exact zero (Python
    raises [ZeroDivisionError], NumPy yields an infinity or a NaN).

    Containers.  Landmark lists are [list (R * R)] read with stdpp's list
    lookup; Python dictionaries are stdpp [gmap]s with string keys;
    exceptions are values of the [result] type. *)

From Stdlib Require Import Reals Lra Lia ZArith.
From stdpp Require Import base option list strings gmap fin_maps.

(* ===================================================================== *)
(** ** Python values: exceptions, built-ins                              *)
(* ===================================================================== *)

(** Comparisons of reals are decided classically; the instances let the
    model branch on them with [bool_decide], as the code branches on
    comparisons of floats. *)
Global Instance Rlt_decision (x y : R) : Decision (x < y)%R := Rlt_dec x y.
Global Instance Rle_decision (x y : R) : Decision (x <= y)%R := Rle_dec x y.
Global Instance Rgt_decision (x y : R) : Decision (x > y)%R := Rgt_dec x y.
Global Instance Rge_decision (x y : R) : Decision (x >= y)%R := Rge_dec x y.
Global Instance Req_decision : EqDecision R := Req_dec_T.

Module Py.

Inductive exn : Type :=
| ZeroDivisionError
| IndexError
| KeyError (key : string)
| ValueError (msg : string).

Inductive result (A : Type) : Type :=
| Ok (a : A)
| Raise (e : exn).
Global Arguments Ok {A} a.
Global Arguments Raise {A} e.

Global Instance result_ret : MRet result := fun A a => Ok a.
Global Instance result_bind : MBind result := fun A B k r =>
  match r with
  | Ok a => k a
  | Raise e => Raise e
  end.

Definition returns {A} (r : result A) : Prop := exists a, r = Ok a.

Section Floats.
Local Open Scope R_scope.

(** [x / y] on Python floats. *)
Definition div (x y : R) : result R :=
  if bool_decide (y = 0) then Raise ZeroDivisionError else Ok (x / y).

(** [max(a, b)] keeps the first argument unless the second is greater;
    [min(a, b)] keeps it unless the second is smaller. *)
Definition max (a b : R) : R := if bool_decide (b > a) then b else a.
Definition min (a b : R) : R := if bool_decide (b < a) then b else a.
Definition max3 (a b c : R) : R := max (max a b) c.

Definition abs (x : R) : R := Rabs x.

(** [min(xs)] and [max(xs)] over a non-empty sequence, as the left fold
    the interpreter runs; on the empty sequence Python raises. *)
Definition min_of (xs : list R) : result R :=
  match xs with
  | [] => Raise (ValueError "min() arg is an empty sequence")
  | x :: rest => Ok (fold_left min rest x)
  end.
Definition max_of (xs : list R) : result R :=
  match xs with
  | [] => Raise (ValueError "max() arg is an empty sequence")
  | x :: rest => Ok (fold_left max rest x)
  end.

(** [int(x)]: truncation toward zero. *)
Definition int (x : R) : Z :=
  if bool_decide (0 <= x) then Int_part x else (- Int_part (- x))%Z.
End Floats.

(** [seq[idx]] for a non-negative index. *)
Definition getitem {A} (l : list A) (idx : nat) : result A :=
  match l !! idx with
  | Some a => Ok a
  | None => Raise IndexError
  end.

(** [d[key]] and [d.get(key, default)] on a dictionary. *)
Definition dict_getitem {A} (d : gmap string A) (key : string) : result A :=
  match d !! key with
  | Some a => Ok a
  | None => Raise (KeyError key)
  end.
Definition dict_get {A} (d : gmap string A) (key : string) (dflt : A) : A :=
  default dflt (d !! key).

(** [range(start, stop, step)] for a positive step. *)
Definition range (start stop step : nat) : list nat :=
  (fun k => start + k * step) <$> seq 0 ((stop - start + (step - 1)) / step).

End Py.

Export Py (result, Ok, Raise, result_ret, result_bind).

(* ===================================================================== *)
(** ** NumPy scalars and functions                                       *)
(* ===================================================================== *)

Module Np.
Local Open Scope R_scope.

Definition pi : R := PI.
Definition radians (deg : R) : R := deg * (PI / 180).
Definition degrees (rad : R) : R := rad * (180 / PI).

Definition dot (u v : R * R) : R := u.1 * v.1 + u.2 * v.2.
Definition sub (u v : R * R) : R * R := (u.1 - v.1, u.2 - v.2).
(** [np.linalg.norm] of a vector of two components. *)
Definition norm (u : R * R) : R := sqrt (u.1 * u.1 + u.2 * u.2).
(** [np.clip(x, lo, hi)] is [minimum(maximum(x, lo), hi)]. *)
Definition clip (x lo hi : R) : R := Rmin (Rmax x lo) hi.
Definition arccos (x : R) : R := acos x.

(** A [float64] that may have left the reals.  Only the quotient inside
    the typology angle can do so: its denominator can be an exact zero. *)
Inductive float64 : Type :=
| Finite (r : R)
| PosInf
| NegInf
| NaN.

(** [x / y] on NumPy scalars: no exception, IEEE results. *)
Definition divide (x y : R) : float64 :=
  if bool_decide (y = 0) then
    if bool_decide (0 < x) then PosInf
    else if bool_decide (x < 0) then NegInf
    else NaN
  else Finite (x / y).

Definition arctan (x : float64) : float64 :=
  match x with
  | Finite r => Finite (atan r)
  | PosInf => Finite (PI / 2)
  | NegInf => Finite (- (PI / 2))
  | NaN => NaN
  end.

Definition degrees64 (x : float64) : float64 :=
  match x with
  | Finite r => Finite (degrees r)
  | other => other
  end.

(** [x >= c]: every comparison with a NaN is false. *)
Definition ge (x : float64) (c : R) : bool :=
  match x with
  | Finite r => bool_decide (r >= c)
  | PosInf => true
  | NegInf | NaN => false
  end.

(** The order of [float64]: a NaN is comparable with nothing. *)
Definition le (x y : float64) : Prop :=
  match x, y with
  | NaN, _ | _, NaN => False
  | NegInf, _ | _, PosInf => True
  | Finite a, Finite b => a <= b
  | _, _ => False
  end.

(** [np.arctan2(y, x)]. *)
Definition arctan2 (y x : R) : R :=
  if bool_decide (0 < x) then atan (y / x)
  else if bool_decide (x < 0) then
    if bool_decide (0 <= y) then atan (y / x) + PI else atan (y / x) - PI
  else if bool_decide (0 < y) then PI / 2
  else if bool_decide (y < 0) then - (PI / 2)
  else 0.

End Np.

(* ===================================================================== *)
(** ** Data model                                                        *)
(* ===================================================================== *)

Local Open Scope R_scope.

Definition Point : Type := R * R.

(** The dictionary [calculate_dimensions] returns and [classify_face]
    reads: five fixed keys. *)
Record FaceDimensions : Type := {
  forehead_width : R;
  cheekbone_width : R;
  jaw_width : R;
  face_length : R;
  jaw_angle : R;
}.

(* ===================================================================== *)
(** ** classify_face                                                     *)
(* ===================================================================== *)

Definition classify_face (dimensions : FaceDimensions) : result string :=
  let forehead := forehead_width dimensions in
  let cheekbone := cheekbone_width dimensions in
  let jaw := jaw_width dimensions in
  let length := face_length dimensions in
  let jaw_angle := jaw_angle dimensions in
  let width_avg := (forehead + cheekbone + jaw) / 3.0 in
  length_ratio ← Py.div length (width_avg + 1e-6);
  cheek_to_jaw ← Py.div cheekbone (jaw + 1e-6);
  forehead_to_jaw ← Py.div forehead (jaw + 1e-6);
  if bool_decide (length_ratio < 1.05) then
    if bool_decide (jaw_angle < Np.pi / 3.4) then Ok "square"
    else if bool_decide (cheek_to_jaw > 1.05) then Ok "heart"
    else Ok "round"
  else if bool_decide (length_ratio >= 1.35) then
    if bool_decide (cheek_to_jaw > 1.1) && bool_decide (forehead_to_jaw < 0.95)
    then Ok "diamond"
    else Ok "oblong"
  else if bool_decide (cheek_to_jaw > 1.15) then Ok "heart"
  else if bool_decide (jaw_angle < Np.pi / 3.5) then Ok "square"
  else if bool_decide (cheek_to_jaw > 1.05) && bool_decide (forehead_to_jaw > 1.05)
  then Ok "heart"
  else Ok "oval".

(* ===================================================================== *)
(** ** compute_jaw_definition                                            *)
(* ===================================================================== *)

Definition compute_jaw_definition (dimensions : FaceDimensions) : R :=
  let jaw_angle := jaw_angle dimensions in
  let normalized :=
    Py.max 0.0 (Py.min 1.0 ((jaw_angle - Np.radians 25) / Np.radians 25)) in
  1.0 - Py.abs (normalized - 0.5).

(* ===================================================================== *)
(** ** calculate_dimensions                                              *)
(* ===================================================================== *)

Definition distance (a b : Point) : R := Np.norm (Np.sub a b).

Definition calculate_dimensions (points : list Point) : result FaceDimensions :=
  p108 ← Py.getitem points 108; p338 ← Py.getitem points 338;
  let forehead := distance p108 p338 in
  p234 ← Py.getitem points 234; p454 ← Py.getitem points 454;
  let cheekbone := distance p234 p454 in
  p58 ← Py.getitem points 58; p288 ← Py.getitem points 288;
  let jaw := distance p58 p288 in
  p10 ← Py.getitem points 10; p152 ← Py.getitem points 152;
  let face_length := distance p10 p152 in
  jaw_left ← Py.getitem points 172;
  chin ← Py.getitem points 152;
  jaw_right ← Py.getitem points 397;
  let v_left := Np.sub jaw_left chin in
  let v_right := Np.sub jaw_right chin in
  let cosine := Np.dot v_left v_right / (Np.norm v_left * Np.norm v_right + 1e-6) in
  let jaw_angle := Np.arccos (Np.clip cosine (-1.0) 1.0) in
  Ok {| forehead_width := forehead;
        cheekbone_width := cheekbone;
        jaw_width := jaw;
        face_length := face_length;
        jaw_angle := jaw_angle |}.

(** The denominator of [cosine], named for the statements about it. *)
Definition cosine_denominator (jaw_left chin jaw_right : Point) : R :=
  Np.norm (Np.sub jaw_left chin) * Np.norm (Np.sub jaw_right chin) + 1e-6.

(* ===================================================================== *)
(** ** rgb_to_lab and analyze_skin_tone                                  *)
(* ===================================================================== *)

Definition Lab : Type := R * R * R.

(** [x ** y] is only reached with a positive base here, where it is
    [Rpower]. *)
Definition gamma_correct (channel : R) : R :=
  if bool_decide (channel <= 0.04045) then channel / 12.92
  else Rpower ((channel + 0.055) / 1.055) 2.4.

Definition lab_f (component : R) : R :=
  if bool_decide (component > 0.008856) then Rpower component (1 / 3)
  else 7.787 * component + 16 / 116.

Definition rgb_to_lab (rgb : R * R * R) : Lab :=
  let '(r, g, b) := rgb in
  let r := gamma_correct r in
  let g := gamma_correct g in
  let b := gamma_correct b in
  let x := (0.4124 * r + 0.3576 * g + 0.1805 * b) / 0.95047 in
  let y := 0.2126 * r + 0.7152 * g + 0.0722 * b in
  let z := (0.0193 * r + 0.1192 * g + 0.9505 * b) / 1.08883 in
  let fx := lab_f x in
  let fy := lab_f y in
  let fz := lab_f z in
  let l := 116 * fy - 16 in
  let a := 500 * (fx - fy) in
  let b_val := 200 * (fy - fz) in
  (l, a, b_val).

(** Lines 133-143: the typology angle and its five buckets. *)
Definition typology_angle (lab : Lab) : Np.float64 :=
  let '(l, _, b) := lab in
  Np.degrees64 (Np.arctan (Np.divide (l - 50.0) (b + 1e-6))).

Definition tone_of_ita (ita : Np.float64) : string :=
  if Np.ge ita 55 then "very_light"
  else if Np.ge ita 41 then "light"
  else if Np.ge ita 28 then "medium"
  else if Np.ge ita 10 then "tan"
  else "deep".

(** Lines 145-150. *)
Definition undertone_of_lab (lab : Lab) : string :=
  let '(_, a, b) := lab in
  if bool_decide (a < -2) && bool_decide (b < 10) then "cool"
  else if bool_decide (b > 15) then "warm"
  else "neutral".

(** An RGB image of [height] rows and [width] columns of [uint8] triples,
    and a one-channel [uint8] array of the same shape. *)
Record Image : Type := {
  height : nat;
  width : nat;
  pixel : nat -> nat -> Z * Z * Z;
}.
Definition Mask : Type := nat -> nat -> Z.

Definition insufficient_sample : Py.exn :=
  Py.ValueError "Insufficient data for skin tone analysis. Try again.".

(** Line 121 stores the cheek points as [float32] and line 124 casts them
    to [int32].  The model truncates the real coordinate toward zero: the
    rounding to [float32] and the range of [int32] are left out.  The
    vertices only reach [fillConvexPoly], which every statement about the
    analyzer leaves arbitrary. *)
Definition astype_int32 (p : Point) : Z * Z := (Py.int p.1, Py.int p.2).

(** [image[mask == 255]]: the pixels under the mask, in row-major order. *)
Definition boolean_index (image : Image) (mask : Mask) : list (Z * Z * Z) :=
  r ← seq 0 (height image);
  c ← seq 0 (width image);
  if bool_decide (mask r c = 255%Z) then [pixel image r c] else [].

(** [np.mean(pixels, axis=0)]. *)
Definition mean_axis0 (pixels : list (Z * Z * Z)) : R * R * R :=
  let n := INR (length pixels) in
  let total (channel : Z * Z * Z -> Z) := IZR (foldr Z.add 0%Z (channel <$> pixels)) in
  (total (fun p => p.1.1) / n, total (fun p => p.1.2) / n, total (fun p => p.2) / n).

Definition skin_tone_of_average (avg_rgb : R * R * R) : string * string * (Z * Z * Z) :=
  let '(r, g, b) := avg_rgb in
  let lab := rgb_to_lab (r / 255.0, g / 255.0, b / 255.0) in
  let ita := typology_angle lab in
  let tone := tone_of_ita ita in
  let undertone := undertone_of_lab lab in
  (tone, undertone, (Py.int r, Py.int g, Py.int b)).

Section SkinTone.
(** [cv2.fillConvexPoly(mask, polygon, color)], an OpenCV primitive: the
    array after the polygon has been filled. *)
Variable fillConvexPoly : Mask -> list (Z * Z) -> Z -> Mask.

Definition cheek_mask (cheek_points : list Point) : Mask :=
  let mask : Mask := fun _ _ => 0%Z in
  fillConvexPoly mask (astype_int32 <$> cheek_points) 255%Z.

Definition analyze_skin_tone (image : Image) (points : list Point)
  : result (string * string * (Z * Z * Z)) :=
  let cheek_indices := [93; 227; 137; 177]%nat in
  cheek_points ← mapM (Py.getitem points) cheek_indices;
  let mask := cheek_mask cheek_points in
  let pixels := boolean_index image mask in
  if bool_decide ((length pixels * 3)%nat = 0%nat) then Raise insufficient_sample
  else
    let avg_rgb := mean_axis0 pixels in
    Ok (skin_tone_of_average avg_rgb).
End SkinTone.

(* ===================================================================== *)
(** ** generate_overlay                                                  *)
(* ===================================================================== *)

Record Overlay : Type := {
  bounding_box : R * R * R * R;
  zones : gmap string (list Point);
}.

Section OverlayPrimitives.
(** The two closures of [generate_overlay]; they capture the box. *)
Variables min_x min_y max_x max_y : R.

Definition make_zone (zone_type : string) (factor_y height inset : R) : list Point :=
  let x1 := min_x + (max_x - min_x) * inset in
  let x2 := max_x - (max_x - min_x) * inset in
  let top := min_y + (max_y - min_y) * factor_y in
  let bottom := top + (max_y - min_y) * height in
  [(x1, bottom); (x1 + (max_x - min_x) * 0.05, top);
   (x2 - (max_x - min_x) * 0.05, top); (x2, bottom)].

Definition ellipse (center_y_factor width_factor height_factor : R) : list Point :=
  let center_x := (min_x + max_x) / 2 in
  let center_y := min_y + (max_y - min_y) * center_y_factor in
  let radius_x := (max_x - min_x) * width_factor / 2 in
  let radius_y := (max_y - min_y) * height_factor / 2 in
  (fun degree : nat =>
     let radians := Np.radians (INR degree) in
     let x := center_x + cos radians * radius_x in
     let y := center_y + sin radians * radius_y in
     (x, y)) <$> Py.range 0 360 30.

Definition zones_for (shape : string) : gmap string (list Point) :=
  if bool_decide (shape = "round") then
    {[ "contour" := make_zone "contour" 0.35 0.4 0.15;
       "blush" := ellipse 0.55 0.35 0.25;
       "highlight" := ellipse 0.4 0.2 0.2 ]}
  else if bool_decide (shape = "oval") then
    {[ "contour" := make_zone "contour" 0.3 0.4 0.18;
       "blush" := ellipse 0.6 0.3 0.2;
       "highlight" := ellipse 0.38 0.2 0.18 ]}
  else if bool_decide (shape = "square") then
    {[ "contour" := make_zone "contour" 0.3 0.5 0.1;
       "blush" := ellipse 0.58 0.32 0.18;
       "highlight" := ellipse 0.38 0.22 0.18 ]}
  else if bool_decide (shape = "heart") then
    {[ "contour" := make_zone "contour" 0.25 0.45 0.12;
       "blush" := ellipse 0.55 0.28 0.18;
       "highlight" := ellipse 0.35 0.2 0.2 ]}
  else if bool_decide (shape = "oblong") then
    {[ "contour" := make_zone "contour" 0.25 0.5 0.18;
       "blush" := ellipse 0.6 0.28 0.18;
       "highlight" := ellipse 0.42 0.22 0.18 ]}
  else
    {[ "contour" := make_zone "contour" 0.28 0.45 0.1;
       "blush" := ellipse 0.55 0.32 0.2;
       "highlight" := ellipse 0.36 0.2 0.18 ]}.
End OverlayPrimitives.

(** Line 178 transposes the points into [xs] and [ys]; with no point there
    is nothing to unpack into the two names. *)
Definition unzip_points (points : list Point) : result (list R * list R) :=
  match points with
  | [] => Raise (Py.ValueError "not enough values to unpack (expected 2, got 0)")
  | _ => Ok (points.*1, points.*2)
  end.

Definition generate_overlay (shape : string) (points : list Point) : result Overlay :=
  '(xs, ys) ← unzip_points points;
  min_x ← Py.min_of xs; max_x ← Py.max_of xs;
  min_y ← Py.min_of ys; max_y ← Py.max_of ys;
  let bounding_box := (min_x, min_y, max_x, max_y) in
  let zones := zones_for min_x min_y max_x max_y shape in
  Ok {| bounding_box := bounding_box; zones := zones |}.

(* ===================================================================== *)
(** ** build_recommendations                                             *)
(* ===================================================================== *)

(** A value of the inner dictionaries: a text or a list of texts. *)
Inductive value : Type :=
| Text (s : string)
| Items (l : list string).

Definition palettes : gmap string (gmap string (list string)) :=
  {[ "warm" :=
       {[ "blush" := ["Peach"; "Apricot"; "Warm coral"];
          "eyes" := ["Bronze"; "Warm taupe"; "Olive green"];
          "lips" := ["Terracotta"; "Warm nude"; "Rust red"] ]};
     "cool" :=
       {[ "blush" := ["Rose"; "Soft berry"; "Cool pink"];
          "eyes" := ["Plum"; "Soft grey"; "Slate blue"];
          "lips" := ["Berry"; "Cool mauve"; "Blue-based red"] ]};
     "neutral" :=
       {[ "blush" := ["Dusty rose"; "Neutral coral"; "Soft mauve"];
          "eyes" := ["Champagne"; "Neutral brown"; "Soft copper"];
          "lips" := ["Rosewood"; "Balanced nude"; "Classic red"] ]} ]}.

Definition shade_palette (undertone category : string) : result (list string) :=
  neutral ← Py.dict_getitem palettes "neutral";
  Py.dict_getitem (Py.dict_get palettes undertone neutral) category.

Definition shape_guidance : gmap string (gmap string string) :=
  {[ "round" :=
       {[ "blush" := "Sweep blush above the apples and pull back toward temples.";
          "contour" := "Contour beneath cheekbones and jawline for definition.";
          "highlight" := "Highlight center of forehead, nose bridge, and chin." ]};
     "oval" :=
       {[ "blush" := "Apply to apples and blend outward along cheekbones.";
          "contour" := "Light contour under cheekbones and temples.";
          "highlight" := "Highlight cheekbone tops, brow bone, and cupid's bow." ]};
     "square" :=
       {[ "blush" := "Focus on cheek centers and blend softly to diffuse angles.";
          "contour" := "Soften jawline and outer forehead, blending well.";
          "highlight" := "Highlight center of face and cheekbone peaks." ]};
     "heart" :=
       {[ "blush" := "Place blush lower on cheeks and blend upward.";
          "contour" := "Shade sides of forehead and lightly under cheekbones.";
          "highlight" := "Highlight cheekbones and cupid's bow subtly on forehead." ]};
     "oblong" :=
       {[ "blush" := "Apply horizontally across cheeks to add width.";
          "contour" := "Contour forehead top and chin to shorten appearance.";
          "highlight" := "Highlight cheekbones and cupid's bow, skip chin." ]};
     "diamond" :=
       {[ "blush" := "Tap blush on apples and curve outward to soften cheekbones.";
          "contour" := "Contour under cheekbones tapering toward temples.";
          "highlight" := "Highlight forehead center, nose bridge, and chin." ]} ]}.

Definition contour_finishes : list string :=
  ["Soft matte stick"; "Sheer cream"; "Buildable powder"].
Definition highlight_finishes : list string :=
  ["Cream luminizer"; "Soft pearl powder"; "Liquid glow"].

Definition build_recommendations (shape undertone : string)
  : result (gmap string (gmap string value)) :=
  oval ← Py.dict_getitem shape_guidance "oval";
  let base := Py.dict_get shape_guidance shape oval in
  blush_details ← Py.dict_getitem base "blush";
  blush_shades ← shade_palette undertone "blush";
  contour_details ← Py.dict_getitem base "contour";
  highlight_details ← Py.dict_getitem base "highlight";
  eyes_shades ← shade_palette undertone "eyes";
  lips_shades ← shade_palette undertone "lips";
  Ok {[ "blush" :=
          {[ "details" := Text blush_details;
             "suggested_shades" := Items blush_shades ]};
        "contour" :=
          {[ "details" := Text contour_details;
             "suggested_finishes" := Items contour_finishes ]};
        "highlight" :=
          {[ "details" := Text highlight_details;
             "suggested_finishes" := Items highlight_finishes ]};
        "eyes" :=
          {[ "details" := Text "Choose shades that complement your undertone and layer from matte to shimmer.";
             "suggested_shades" := Items eyes_shades ]};
        "lips" :=
          {[ "details" := Text "Match lip families to undertone; adjust intensity for day or night looks.";
             "suggested_shades" := Items lips_shades ]} ]}.

(* ===================================================================== *)
(** ** compute_symmetry                                                  *)
(* ===================================================================== *)

Record Symmetry : Type := {
  score : R;
  description : string;
  guidance : string;
  eye_delta : R;
}.

Definition compute_symmetry (points : list Point) (bounding_box : R * R * R * R)
  : Symmetry :=
  let '(min_x, min_y, max_x, max_y) := bounding_box in
  let height := Py.max (max_y - min_y) 1e-6 in
  let width := Py.max (max_x - min_x) 1e-6 in
  let mid_x := (min_x + max_x) / 2 in
  (* [point(idx) or fallback]: a pair is always truthy *)
  let point (idx : nat) : option Point := points !! idx in
  let nose := default (mid_x, (min_y + max_y) / 2) (point 1%nat) in
  let left_cheek := default (min_x, (min_y + max_y) / 2) (point 234%nat) in
  let right_cheek := default (max_x, (min_y + max_y) / 2) (point 454%nat) in
  let left_dist := Np.norm (Np.sub left_cheek nose) in
  let right_dist := Np.norm (Np.sub right_cheek nose) in
  let max_dist := Py.max3 left_dist right_dist 1e-6 in
  let balance_delta := Py.abs (left_dist - right_dist) / max_dist in
  let symmetry_score := Py.max 0.0 (1.0 - Py.min 1.0 balance_delta) in
  let description :=
    if bool_decide (symmetry_score >= 0.9) then
      "Highly balanced proportions across both sides of the face."
    else if bool_decide (symmetry_score >= 0.75) then
      "Soft asymmetric accents add character and are easy to balance."
    else
      "Cheek widths vary more noticeably; thoughtful contour can even things out." in
  let guidance :=
    if bool_decide (symmetry_score >= 0.85) then
      "Mirror highlight and blush placement to emphasize your natural balance."
    else if bool_decide (symmetry_score >= 0.65) then
      "Concentrate highlight on the higher cheekbone and blend contour upward on the fuller side."
    else
      "Use diagonal blush placement and tapered contour strokes to visually lift the softer side." in
  let left_eye := default (min_x, nose.2) (point 159%nat) in
  let right_eye := default (max_x, nose.2) (point 386%nat) in
  let eye_delta := Py.abs (left_eye.2 - right_eye.2) in
  let eye_alignment_degrees := Np.degrees (Np.arctan2 eye_delta width) in
  {| score := symmetry_score;
     description := description;
     guidance := guidance;
     eye_delta := eye_alignment_degrees |}.

(* ===================================================================== *)
(** ** The specification's own words                                     *)
(* ===================================================================== *)

Module Spec.

(** Section 3: the widths, the length and the angle of a FaceDimensions
    value are non-negative, and the angle is at most pi. *)
Definition FaceDimensions_ok (d : FaceDimensions) : Prop :=
  0 <= forehead_width d /\ 0 <= cheekbone_width d /\ 0 <= jaw_width d /\
  0 <= face_length d /\ 0 <= jaw_angle d <= PI.

(** Section 4.2: the derived ratios, every denominator with its epsilon. *)
Definition epsilon : R := 1e-6.
Definition width_avg (d : FaceDimensions) : R :=
  (forehead_width d + cheekbone_width d + jaw_width d) / 3.
Definition length_ratio (d : FaceDimensions) : R :=
  face_length d / (width_avg d + epsilon).
Definition cheek_to_jaw (d : FaceDimensions) : R :=
  cheekbone_width d / (jaw_width d + epsilon).
Definition forehead_to_jaw (d : FaceDimensions) : R :=
  forehead_width d / (jaw_width d + epsilon).

(** Section 4.2: the decision tree, one constructor per leaf, each with
    the conditions under which it is the first match. *)
Inductive decision_tree (length_ratio cheek_to_jaw forehead_to_jaw jaw_angle : R)
  : string -> Prop :=
| short_square :
    length_ratio < 1.05 -> jaw_angle < PI / 3.4 ->
    decision_tree length_ratio cheek_to_jaw forehead_to_jaw jaw_angle "square"
| short_heart :
    length_ratio < 1.05 -> ~ jaw_angle < PI / 3.4 -> cheek_to_jaw > 1.05 ->
    decision_tree length_ratio cheek_to_jaw forehead_to_jaw jaw_angle "heart"
| short_round :
    length_ratio < 1.05 -> ~ jaw_angle < PI / 3.4 -> ~ cheek_to_jaw > 1.05 ->
    decision_tree length_ratio cheek_to_jaw forehead_to_jaw jaw_angle "round"
| long_diamond :
    length_ratio >= 1.35 -> cheek_to_jaw > 1.1 /\ forehead_to_jaw < 0.95 ->
    decision_tree length_ratio cheek_to_jaw forehead_to_jaw jaw_angle "diamond"
| long_oblong :
    length_ratio >= 1.35 -> ~ (cheek_to_jaw > 1.1 /\ forehead_to_jaw < 0.95) ->
    decision_tree length_ratio cheek_to_jaw forehead_to_jaw jaw_angle "oblong"
| mid_heart_cheek :
    1.05 <= length_ratio < 1.35 -> cheek_to_jaw > 1.15 ->
    decision_tree length_ratio cheek_to_jaw forehead_to_jaw jaw_angle "heart"
| mid_square :
    1.05 <= length_ratio < 1.35 -> ~ cheek_to_jaw > 1.15 ->
    jaw_angle < PI / 3.5 ->
    decision_tree length_ratio cheek_to_jaw forehead_to_jaw jaw_angle "square"
| mid_heart_forehead :
    1.05 <= length_ratio < 1.35 -> ~ cheek_to_jaw > 1.15 ->
    ~ jaw_angle < PI / 3.5 ->
    cheek_to_jaw > 1.05 /\ forehead_to_jaw > 1.05 ->
    decision_tree length_ratio cheek_to_jaw forehead_to_jaw jaw_angle "heart"
| mid_oval :
    1.05 <= length_ratio < 1.35 -> ~ cheek_to_jaw > 1.15 ->
    ~ jaw_angle < PI / 3.5 ->
    ~ (cheek_to_jaw > 1.05 /\ forehead_to_jaw > 1.05) ->
    decision_tree length_ratio cheek_to_jaw forehead_to_jaw jaw_angle "oval".

(** Section 8: the worked scenario. *)
Definition scenario : FaceDimensions :=
  {| forehead_width := 130; cheekbone_width := 150; jaw_width := 120;
     face_length := 200; jaw_angle := 1.5 |}.

(** Section 4.3: the bucket order deep < tan < medium < light <
    very_light. *)
Definition tone_rank (tone : string) : option nat :=
  if bool_decide (tone = "deep") then Some 0%nat
  else if bool_decide (tone = "tan") then Some 1%nat
  else if bool_decide (tone = "medium") then Some 2%nat
  else if bool_decide (tone = "light") then Some 3%nat
  else if bool_decide (tone = "very_light") then Some 4%nat
  else None.

(** Section 4.4: a quadrilateral whose bottom and top edges are both
    horizontal, listed bottom-left, top-left, top-right, bottom-right. *)
Definition trapezoid (quad : list Point) : Prop :=
  exists x1 x2 x3 x4 top bottom,
    quad = [(x1, bottom); (x2, top); (x3, top); (x4, bottom)].

(** Section 4.4: twelve points at 0, 30, ..., 330 degrees on the ellipse
    of centre (center_x, center_y) and radii radius_x, radius_y. *)
Definition ellipse_samples (center_x center_y radius_x radius_y : R) : list Point :=
  (fun k : nat =>
     let angle := INR (30 * k) * (PI / 180) in
     (center_x + radius_x * cos angle, center_y + radius_y * sin angle))
  <$> seq 0 12.

(** Section 3: the landmark indices the dimension measurer reads. *)
Definition dimension_indices : list nat :=
  [108; 338; 234; 454; 58; 288; 10; 152; 172; 397]%nat.

(** A landmark list of the contract's length, 468 points. *)
Definition sample_landmarks : list Point :=
  (fun i : nat => (INR i, INR (2 * i))) <$> seq 0 468.

(** Section 3: the cheek-sampling quad. *)
Definition cheek_indices : list nat := [93; 227; 137; 177]%nat.

(** Section 4.3: the mask contains zero pixels. *)
Definition mask_is_empty (image : Image) (mask : Mask) : Prop :=
  forall r c : nat,
    (r < height image)%nat -> (c < width image)%nat -> mask r c <> 255%Z.

(** Section 4.3: sRGB gamma decoding, linear below 0.04045 and a power
    law of exponent 2.4 above. *)
Definition gamma_decoded (channel linear : R) : Prop :=
  (channel < 0.04045 -> linear = channel / 12.92) /\
  (channel > 0.04045 -> linear = Rpower ((channel + 0.055) / 1.055) 2.4).

(** The sRGB/D65 matrix and the D65 white point. *)
Definition srgb_to_xyz (linear : R * R * R) : R * R * R :=
  let '(r, g, b) := linear in
  (0.4124 * r + 0.3576 * g + 0.1805 * b,
   0.2126 * r + 0.7152 * g + 0.0722 * b,
   0.0193 * r + 0.1192 * g + 0.9505 * b).
Definition d65_white : R * R * R := (0.95047, 1, 1.08883).

(** The XYZ to Lab nonlinearity: cube root above 0.008856, the linear
    approximation below. *)
Definition lab_nonlinearity (t ft : R) : Prop :=
  (t > 0.008856 -> ft = Rpower t (1 / 3)) /\
  (t < 0.008856 -> ft = 7.787 * t + 16 / 116).

Definition srgb_to_lab (rgb : R * R * R) (lab : Lab) : Prop :=
  let '(r, g, b) := rgb in
  exists rl gl bl fx fy fz,
    gamma_decoded r rl /\ gamma_decoded g gl /\ gamma_decoded b bl /\
    let '(x, y, z) := srgb_to_xyz (rl, gl, bl) in
    let '(xn, yn, zn) := d65_white in
    lab_nonlinearity (x / xn) fx /\ lab_nonlinearity (y / yn) fy /\
    lab_nonlinearity (z / zn) fz /\
    lab = (116 * fy - 16, 500 * (fx - fy), 200 * (fy - fz)).

(** Section 4.3: ITA = degrees(atan((L - 50) / (b + epsilon))), with
    NumPy's reading of the three operations. *)
Definition ita (l b : R) : Np.float64 :=
  Np.degrees64 (Np.arctan (Np.divide (l - 50) (b + epsilon))).

Definition at_least (x : Np.float64) (threshold : R) : Prop :=
  Np.le (Np.Finite threshold) x.

(** Section 4.3: the five buckets, each with the interval of angles that
    falls into it. *)
Inductive tone_rule (ita : Np.float64) : string -> Prop :=
| tone_very_light :
    at_least ita 55 -> tone_rule ita "very_light"
| tone_light :
    at_least ita 41 -> ~ at_least ita 55 -> tone_rule ita "light"
| tone_medium :
    at_least ita 28 -> ~ at_least ita 41 -> tone_rule ita "medium"
| tone_tan :
    at_least ita 10 -> ~ at_least ita 28 -> tone_rule ita "tan"
| tone_deep :
    ~ at_least ita 10 -> tone_rule ita "deep".

(** Section 4.3: cool when a < -2 and b < 10, warm when b > 15, neutral
    otherwise. *)
Inductive undertone_rule (a b : R) : string -> Prop :=
| undertone_cool : a < -2 -> b < 10 -> undertone_rule a b "cool"
| undertone_warm : b > 15 -> undertone_rule a b "warm"
| undertone_neutral :
    ~ (a < -2 /\ b < 10) -> ~ b > 15 -> undertone_rule a b "neutral".

(** A two-by-two image of one colour, and two stand-ins for the OpenCV
    primitive: one paints nothing, one paints every pixel. *)
Definition sample_image : Image :=
  {| height := 2; width := 2; pixel := fun _ _ => (220, 180, 160)%Z |}.
Definition fill_nothing : Mask -> list (Z * Z) -> Z -> Mask :=
  fun mask _ _ => mask.
Definition fill_everything : Mask -> list (Z * Z) -> Z -> Mask :=
  fun _ _ color _ _ => color.

Definition known_shapes : list string :=
  ["round"; "oval"; "square"; "heart"; "oblong"; "diamond"].
Definition known_undertones : list string := ["warm"; "cool"; "neutral"].
Definition categories : gset string :=
  {[ "blush"; "contour"; "highlight"; "eyes"; "lips" ]}.

(** Section 4.5: the suggestion list of a recommendation entry, under
    either of its two names. *)
Definition suggestions (name : string) (entry : gmap string value)
  : option (list string) :=
  match entry !! name with
  | Some (Items l) => Some l
  | _ => None
  end.

End Spec.

(* ===================================================================== *)
(** ** compute_brow_balance                                              *)
(* ===================================================================== *)

(** The [try] block covers the two lookups only; an [IndexError] in it
    gives the default score. *)
Definition compute_brow_balance (points : list Point) (height : R) : result R :=
  let left_idx := 70%nat in
  let right_idx := 300%nat in
  let looked_up :=
    left_pt ← Py.getitem points left_idx;
    right_pt ← Py.getitem points right_idx;
    Ok (left_pt.2, right_pt.2) in
  match looked_up with
  | Raise Py.IndexError => Ok 0.8
  | Raise e => Raise e
  | Ok (left_y, right_y) =>
      delta ← Py.div (Py.abs (left_y - right_y)) (Py.max height 1e-6);
      Ok (Py.max 0.0 (1.0 - Py.min 1.0 (delta * 3)))
  end.

(* ===================================================================== *)
(** ** build_feature_ratios                                              *)
(* ===================================================================== *)

Module Ratio.
Record t : Type := {
  name : string;
  value : R;
  ideal : R;
  delta : R;
  message : string;
}.
End Ratio.

Definition add_ratio (ratios : list Ratio.t) (name : string) (value ideal : R)
  (formatter : R -> string) : list Ratio.t :=
  let delta := value - ideal in
  ratios ++ [ {| Ratio.name := name; Ratio.value := value; Ratio.ideal := ideal;
                 Ratio.delta := delta; Ratio.message := formatter delta |} ].

Definition build_feature_ratios (dimensions : FaceDimensions)
  : result (list Ratio.t) :=
  let ratios : list Ratio.t := [] in
  let length := face_length dimensions in
  let cheek := Py.max (cheekbone_width dimensions) 1e-6 in
  length_ratio ← Py.div length cheek;
  let ratios :=
    add_ratio ratios "Face length vs. width" length_ratio 1.33
      (fun delta =>
         if bool_decide (delta > 0.15) then "Elongated"
         else if bool_decide (Py.abs delta < 0.05) then "Balanced"
         else "Softly wider") in
  forehead_to_jaw ←
    Py.div (forehead_width dimensions) (Py.max (jaw_width dimensions) 1e-6);
  let ratios :=
    add_ratio ratios "Forehead vs. jaw width" forehead_to_jaw 1.0
      (fun delta =>
         if bool_decide (delta > 0.1) then "Stronger forehead"
         else if bool_decide (Py.abs delta < 0.05) then "Even width"
         else "Defined jaw") in
  cheek_to_jaw ←
    Py.div (cheekbone_width dimensions) (Py.max (jaw_width dimensions) 1e-6);
  let ratios :=
    add_ratio ratios "Cheekbone vs. jaw width" cheek_to_jaw 1.05
      (fun delta =>
         if bool_decide (delta > 0.1) then "Pronounced cheekbones"
         else if bool_decide (Py.abs delta < 0.05) then "Balanced"
         else "Softer cheeks") in
  Ok ratios.

(* ===================================================================== *)
(** ** build_tone_summary                                                *)
(* ===================================================================== *)

(** String formatting of integers with [str.format]. *)
Module Hex.
Import Stdlib.Strings.Ascii.

Definition hex_digit (d : Z) : ascii :=
  default "0"%char (String.list_ascii_of_string "0123456789ABCDEF" !! Z.to_nat d).

(** The upper-case hexadecimal digits of a non-negative integer; [fuel]
    bounds the number of digits. *)
Fixpoint hex_digits (fuel : nat) (n : Z) : string :=
  match fuel with
  | O => ""
  | S fuel' =>
      if (n <? 16)%Z then String (hex_digit n) ""
      else hex_digits fuel' (n / 16) +:+ String (hex_digit (n mod 16)) ""
  end.

Definition zero_pad (width : nat) (digits : string) : string :=
  String.string_of_list_ascii (replicate (width - String.length digits) "0"%char)
  +:+ digits.

(** The format specification [02X]: upper-case hexadecimal, zero-padded
    after the sign to a total width of two. *)
Definition format_02X (n : Z) : string :=
  if (n <? 0)%Z then
    "-" +:+ zero_pad 1 (hex_digits (S (Z.to_nat (Z.log2 (- n)))) (- n))
  else zero_pad 2 (hex_digits (S (Z.to_nat (Z.log2 n))) n).

(** Reading a two-digit upper-case hexadecimal string back; used to state
    that the colour string determines the colour. *)
Definition hex_digit_value (c : ascii) : option Z :=
  found ← list_find (fun d => d = c) (String.list_ascii_of_string "0123456789ABCDEF");
  Some (Z.of_nat found.1).

Definition hex_byte_value (s : string) : option Z :=
  match s with
  | String hi (String lo EmptyString) =>
      h ← hex_digit_value hi; l ← hex_digit_value lo; Some (16 * h + l)%Z
  | _ => None
  end.

Definition hex_color_value (s : string) : option (Z * Z * Z) :=
  match s with
  | String "#"%char (String r1 (String r2 (String g1 (String g2
      (String b1 (String b2 EmptyString)))))) =>
      r ← hex_byte_value (String r1 (String r2 EmptyString));
      g ← hex_byte_value (String g1 (String g2 EmptyString));
      b ← hex_byte_value (String b1 (String b2 EmptyString));
      Some (r, g, b)
  | _ => None
  end.

End Hex.

Definition undertone_keywords : gmap string (list string) :=
  {[ "warm" := ["Golden"; "Sunlit"; "Honey"];
     "cool" := ["Rosy"; "Berry"; "Icy"];
     "neutral" := ["Balanced"; "Adaptive"; "Versatile"] ]}.

Definition finish_tips : gmap string (list string) :=
  {[ "warm" :=
       ["Lean toward softly glazed or dewy finishes to amplify warmth.";
        "Use bronze or caramel contour shades for seamless blending."];
     "cool" :=
       ["Pearl or opal highlights complement cooler undertones.";
        "Cool mauve or berry lip finishes add balance."];
     "neutral" :=
       ["You can mix warm and cool blushes to shift the look effortlessly.";
        "Try satin finishes for contour to maintain flexibility."] ]}.

Definition build_tone_summary (tone undertone : string) (rgb : Z * Z * Z)
  : result (gmap string value) :=
  let '(r, g, b) := rgb in
  let hex_color :=
    "#" +:+ Hex.format_02X r +:+ Hex.format_02X g +:+ Hex.format_02X b in
  neutral_keywords ← Py.dict_getitem undertone_keywords "neutral";
  let keywords := Py.dict_get undertone_keywords undertone neutral_keywords in
  neutral_tips ← Py.dict_getitem finish_tips "neutral";
  let tips := Py.dict_get finish_tips undertone neutral_tips in
  Ok {[ "hex" := Text hex_color;
        "keywords" := Items keywords;
        "finish_tips" := Items tips ]}.

(* ===================================================================== *)
(** ** build_insights                                                    *)
(* ===================================================================== *)

Module Insights.
Record t : Type := {
  symmetry_score : R;
  symmetry_description : string;
  eye_alignment_difference : R;
  guidance : string;
  brow_balance_score : R;
  jaw_definition_score : R;
  feature_ratios : list Ratio.t;
  tone_summary : gmap string value;
  face_shape : string;
}.
End Insights.

Definition build_insights (points : list Point) (bounding_box : R * R * R * R)
  (dimensions : FaceDimensions) (skin_tone : string * string * (Z * Z * Z))
  (face_shape : string) : result Insights.t :=
  let '(min_x, min_y, max_x, max_y) := bounding_box in
  let width := Py.max (max_x - min_x) 1e-6 in
  let height := Py.max (max_y - min_y) 1e-6 in
  let symmetry := compute_symmetry points bounding_box in
  ratios ← build_feature_ratios dimensions;
  tone_summary ← build_tone_summary skin_tone.1.1 skin_tone.1.2 skin_tone.2;
  brow_score ← compute_brow_balance points height;
  let jaw_score := compute_jaw_definition dimensions in
  Ok {| Insights.symmetry_score := score symmetry;
        Insights.symmetry_description := description symmetry;
        Insights.eye_alignment_difference := eye_delta symmetry;
        Insights.guidance := guidance symmetry;
        Insights.brow_balance_score := brow_score;
        Insights.jaw_definition_score := jaw_score;
        Insights.feature_ratios := ratios;
        Insights.tone_summary := tone_summary;
        Insights.face_shape := face_shape |}.

(* ===================================================================== *)
(** ** analyze_image                                                     *)
(* ===================================================================== *)

Module Report.
Record t : Type := {
  dimensions : FaceDimensions;
  face_shape : string;
  skin_tone : string;
  undertone : string;
  skin_sample_rgb : Z * Z * Z;
  overlay : Overlay;
  recommendations : gmap string (gmap string value);
  insights : Insights.t;
}.
End Report.

Definition no_face_detected : Py.exn :=
  Py.ValueError "No face detected. Please retake the selfie with better lighting.".

Section Pipeline.
(** The three library calls of the orchestrator: the PIL decoder (bytes to
    an RGB array; a failure of the decoder is a [Raise]), the MediaPipe
    face mesh together with the colour conversion of its argument (the
    landmark lists of the faces it finds, each landmark normalised to the
    unit square; no face is the empty list) and the OpenCV fill. *)
Variable Image_open : string -> result Image.
Variable FaceMesh_process : Image -> list (list (R * R)).
Variable fillConvexPoly : Mask -> list (Z * Z) -> Z -> Mask.

Definition analyze_image (image_bytes : string) : result Report.t :=
  np_image ← Image_open image_bytes;
  let height := INR (height np_image) in
  let width := INR (width np_image) in
  let multi_face_landmarks := FaceMesh_process np_image in
  match multi_face_landmarks with
  | [] => Raise no_face_detected
  | landmarks :: _ =>
      let points := (fun lm : R * R => (lm.1 * width, lm.2 * height)) <$> landmarks in
      dimensions ← calculate_dimensions points;
      shape ← classify_face dimensions;
      '(tone, undertone, sample_rgb) ← analyze_skin_tone fillConvexPoly np_image points;
      overlay ← generate_overlay shape points;
      let bounding_box := bounding_box overlay in
      recommendations ← build_recommendations shape undertone;
      insights ←
        build_insights points bounding_box dimensions
          (tone, undertone, sample_rgb) shape;
      Ok {| Report.dimensions := dimensions;
            Report.face_shape := shape;
            Report.skin_tone := tone;
            Report.undertone := undertone;
            Report.skin_sample_rgb := sample_rgb;
            Report.overlay := overlay;
            Report.recommendations := recommendations;
            Report.insights := insights |}
  end.

(* ===================================================================== *)
(** ** The /analyze route                                                *)
(* ===================================================================== *)

Record UploadFile : Type := {
  content_type : option string;
  read : string;
}.

Inductive response : Type :=
| JSONResponse (content : Report.t)
| HTTPException (status_code : nat) (detail : string).

(** Of the exceptions of the model only [ValueError] is caught by the
    first handler; [str(exc)] is its message.  The rendering of the
    report as JSON is not part of the model. *)
Definition analyze (file : UploadFile) : response :=
  let is_image :=
    match content_type file with
    | None => false
    | Some ct => bool_decide (ct <> "") && String.prefix "image/" ct
    end in
  if negb is_image then
    HTTPException 400 "Invalid file type. Please upload an image."
  else
    let image_bytes := read file in
    match analyze_image image_bytes with
    | Ok result => JSONResponse result
    | Raise (Py.ValueError msg) => HTTPException 422 msg
    | Raise _ => HTTPException 500 "Analysis failed."
    end.
End Pipeline.

(* ===================================================================== *)
(** ** The validators of models/history.py                               *)
(* ===================================================================== *)

(** [FaceDimensionsModel]: every field is declared with [ge=0]. *)
Definition FaceDimensionsModel_accepts (d : FaceDimensions) : bool :=
  bool_decide (forehead_width d >= 0) && bool_decide (cheekbone_width d >= 0) &&
  bool_decide (jaw_width d >= 0) && bool_decide (face_length d >= 0) &&
  bool_decide (jaw_angle d >= 0).

Definition validate_bounding_box (value : list R) : result (list R) :=
  if bool_decide (length value <> 4%nat) then
    Raise (Py.ValueError "bounding_box must contain four float values [min_x, min_y, max_x, max_y]")
  else Ok value.

Fixpoint check_channels (value : list Z) : result unit :=
  match value with
  | [] => Ok tt
  | channel :: rest =>
      if negb ((0 <=? channel)%Z && (channel <=? 255)%Z) then
        Raise (Py.ValueError "RGB channel values must be in range 0-255")
      else check_channels rest
  end.

Definition validate_rgb (value : list Z) : result (list Z) :=
  if bool_decide (length value <> 3%nat) then
    Raise (Py.ValueError "skin_sample_rgb must contain three integer values")
  else
    _ ← check_channels value;
    Ok value.

(** An image is a [uint8] array: every channel of every pixel is a byte. *)
Definition uint8_image (image : Image) : Prop :=
  forall r c : nat,
    let '(red, green, blue) := pixel image r c in
    (0 <= red <= 255 /\ 0 <= green <= 255 /\ 0 <= blue <= 255)%Z.

(** Stand-ins for the decoder and the detector: a decoder that returns
    the two-by-two sample image, a detector that finds one face with the
    468 sample landmarks scaled down by 1000. *)
Definition sample_decoder : string -> result Image := fun _ => Ok Spec.sample_image.
Definition sample_face : list (R * R) :=
  (fun i : nat => (INR i / 1000, INR (2 * i) / 1000)) <$> seq 0 468.
Definition sample_detector : Image -> list (list (R * R)) := fun _ => [sample_face].
Definition no_face_detector : Image -> list (list (R * R)) := fun _ => [].

(** Moving a landmark by a fixed offset. *)
Definition translate (offset : R * R) (p : Point) : Point :=
  (p.1 + offset.1, p.2 + offset.2).

(** A point lies in the box (min_x, min_y, max_x, max_y). *)
Definition inside_box (box : R * R * R * R) (p : Point) : Prop :=
  let '(min_x, min_y, max_x, max_y) := box in
  min_x <= p.1 <= max_x /\ min_y <= p.2 <= max_y.

(** The invariants of a report (section 3 of the specification, read on
    the record [analyze_image] builds). *)
Definition Report_well_formed (report : Report.t) : Prop :=
  Spec.FaceDimensions_ok (Report.dimensions report) /\
  Report.face_shape report ∈ Spec.known_shapes /\
  Report.skin_tone report ∈ ["very_light"; "light"; "medium"; "tan"; "deep"] /\
  Report.undertone report ∈ ["cool"; "warm"; "neutral"] /\
  (let '(min_x, min_y, max_x, max_y) := bounding_box (Report.overlay report) in
   min_x <= max_x /\ min_y <= max_y) /\
  dom (zones (Report.overlay report))
    = ({[ "contour"; "blush"; "highlight" ]} : gset string) /\
  dom (Report.recommendations report) = Spec.categories /\
  let insights := Report.insights report in
  0 <= Insights.symmetry_score insights <= 1 /\
  0 <= Insights.eye_alignment_difference insights < 90 /\
  0 <= Insights.brow_balance_score insights <= 1 /\
  0.5 <= Insights.jaw_definition_score insights <= 1 /\
  length (Insights.feature_ratios insights) = 3%nat /\
  Insights.face_shape insights = Report.face_shape report.

(** The fields of a report that models/history.py validates when the
    report is stored. *)
Definition Report_storable (report : Report.t) : Prop :=
  let '(red, green, blue) := Report.skin_sample_rgb report in
  let '(min_x, min_y, max_x, max_y) := bounding_box (Report.overlay report) in
  FaceDimensionsModel_accepts (Report.dimensions report) = true /\
  validate_rgb [red; green; blue] = Ok [red; green; blue] /\
  validate_bounding_box [min_x; min_y; max_x; max_y]
    = Ok [min_x; min_y; max_x; max_y].

(** An upload declared as a PNG image. *)
Definition sample_upload : UploadFile :=
  {| content_type := Some "image/png"; read := "" |}.

(* ===================================================================== *)
(** ** Arithmetic helpers                                                *)
(* ===================================================================== *)

Lemma Rdiv_lt_iff (a b c : R) : 0 < c -> a / c < b <-> a < b * c.
Proof.
  intros Hc. assert (Ha : a = a / c * c) by (field; lra).
  split; intros H; [rewrite Ha | rewrite Ha in H]; nra.
Qed.

Lemma Rdiv_gt_iff (a b c : R) : 0 < c -> a / c > b <-> a > b * c.
Proof.
  intros Hc. assert (Ha : a = a / c * c) by (field; lra).
  split; intros H; [rewrite Ha | rewrite Ha in H]; nra.
Qed.

Lemma Rdiv_ge_iff (a b c : R) : 0 < c -> a / c >= b <-> a >= b * c.
Proof.
  intros Hc. assert (Ha : a = a / c * c) by (field; lra).
  split; intros H; [rewrite Ha | rewrite Ha in H]; nra.
Qed.

Lemma Rdiv_le_iff (a b c : R) : 0 < c -> a / c <= b <-> a <= b * c.
Proof.
  intros Hc. assert (Ha : a = a / c * c) by (field; lra).
  split; intros H; [rewrite Ha | rewrite Ha in H]; nra.
Qed.

Lemma Rdiv_eq_iff (a b c : R) : c <> 0 -> a / c = b <-> a = b * c.
Proof.
  intros Hc. assert (Ha : a = a / c * c) by (field; lra).
  split; intros H; [rewrite Ha, H; reflexivity |].
  apply Rmult_eq_reg_r with c; [lra | assumption].
Qed.

Lemma Py_max_Rmax (a b : R) : Py.max a b = Rmax a b.
Proof.
  unfold Py.max, Rmax. case_bool_decide; destruct (Rle_dec a b); lra.
Qed.

Lemma Py_min_Rmin (a b : R) : Py.min a b = Rmin a b.
Proof.
  unfold Py.min, Rmin. case_bool_decide; destruct (Rle_dec a b); lra.
Qed.

Lemma Py_div_nonzero (x y : R) : y <> 0 -> Py.div x y = Ok (x / y).
Proof. intros Hy. unfold Py.div. by rewrite bool_decide_eq_false_2. Qed.

Lemma PI_gt_3 : 3 < PI.
Proof. pose proof PI2_3_2. lra. Qed.

(* ===================================================================== *)
(** ** Face-shape classification                                         *)
(* ===================================================================== *)

Section Classifier.
Variable d : FaceDimensions.
Hypothesis d_ok : Spec.FaceDimensions_ok d.

Lemma width_avg_denominator_pos : 0 < Spec.width_avg d + Spec.epsilon.
Proof using d_ok.
  unfold Spec.width_avg, Spec.epsilon.
  destruct d_ok as (? & ? & ? & _). lra.
Qed.

Lemma jaw_denominator_pos : 0 < jaw_width d + Spec.epsilon.
Proof using d_ok.
  unfold Spec.epsilon. destruct d_ok as (_ & _ & ? & _). lra.
Qed.

Lemma classify_face_unfold :
  classify_face d =
  let length_ratio := Spec.length_ratio d in
  let cheek_to_jaw := Spec.cheek_to_jaw d in
  let forehead_to_jaw := Spec.forehead_to_jaw d in
  if bool_decide (length_ratio < 1.05) then
    if bool_decide (jaw_angle d < Np.pi / 3.4) then Ok "square"
    else if bool_decide (cheek_to_jaw > 1.05) then Ok "heart"
    else Ok "round"
  else if bool_decide (length_ratio >= 1.35) then
    if bool_decide (cheek_to_jaw > 1.1) && bool_decide (forehead_to_jaw < 0.95)
    then Ok "diamond"
    else Ok "oblong"
  else if bool_decide (cheek_to_jaw > 1.15) then Ok "heart"
  else if bool_decide (jaw_angle d < Np.pi / 3.5) then Ok "square"
  else if bool_decide (cheek_to_jaw > 1.05) && bool_decide (forehead_to_jaw > 1.05)
  then Ok "heart"
  else Ok "oval".
Proof using d_ok.
  pose proof width_avg_denominator_pos as Hw.
  pose proof jaw_denominator_pos as Hj.
  unfold Spec.width_avg, Spec.epsilon in Hw. unfold Spec.epsilon in Hj.
  unfold classify_face.
  replace ((forehead_width d + cheekbone_width d + jaw_width d) / 3.0)
    with ((forehead_width d + cheekbone_width d + jaw_width d) / 3) by lra.
  rewrite !Py_div_nonzero by lra. reflexivity.
Qed.
End Classifier.

Lemma decision_tree_functional (lr ctj ftj angle : R) (s1 s2 : string) :
  Spec.decision_tree lr ctj ftj angle s1 ->
  Spec.decision_tree lr ctj ftj angle s2 -> s1 = s2.
Proof.
  intros H1 H2.
  destruct H1; inversion H2; subst; try reflexivity; try lra; tauto.
Qed.

Lemma scenario_ok : Spec.FaceDimensions_ok Spec.scenario.
Proof.
  unfold Spec.FaceDimensions_ok, Spec.scenario; simpl.
  pose proof PI_gt_3. lra.
Qed.

Ltac split_conditions :=
  rewrite <- ?bool_decide_and; repeat case_bool_decide.

Lemma classify_face_in_tree (d : FaceDimensions) :
  Spec.FaceDimensions_ok d ->
  exists shape,
    classify_face d = Ok shape /\
    Spec.decision_tree (Spec.length_ratio d) (Spec.cheek_to_jaw d)
      (Spec.forehead_to_jaw d) (jaw_angle d) shape.
Proof.
  intros Hd. rewrite (classify_face_unfold d Hd). cbv zeta. unfold Np.pi.
  split_conditions; eexists; (split; [reflexivity |]).
  - by apply Spec.short_square.
  - by apply Spec.short_heart.
  - by apply Spec.short_round.
  - by apply Spec.long_diamond.
  - by apply Spec.long_oblong.
  - apply Spec.mid_heart_cheek; [lra | done].
  - apply Spec.mid_square; [lra | done ..].
  - apply Spec.mid_heart_forehead; [lra | done ..].
  - apply Spec.mid_oval; [lra | done ..].
Qed.

Lemma scenario_in_tree :
  Spec.decision_tree (Spec.length_ratio Spec.scenario)
    (Spec.cheek_to_jaw Spec.scenario) (Spec.forehead_to_jaw Spec.scenario)
    (jaw_angle Spec.scenario) "oblong".
Proof.
  apply Spec.long_oblong.
  - unfold Spec.length_ratio, Spec.width_avg, Spec.epsilon; simpl.
    apply Rdiv_ge_iff; lra.
  - unfold Spec.forehead_to_jaw, Spec.epsilon; simpl. intros [_ H].
    apply -> Rdiv_lt_iff in H; lra.
Qed.

(** C1.  On every FaceDimensions value (non-negative widths and length,
    angle in [0, pi]) [classify_face] returns without error, and the shape
    it returns is the one, and the only one, that the decision tree of the
    specification selects from width_avg = mean(forehead, cheekbone, jaw),
    length_ratio = face_length / (width_avg + 1e-6), cheek_to_jaw =
    cheekbone / (jaw + 1e-6) and forehead_to_jaw = forehead / (jaw + 1e-6);
    on {forehead=130, cheekbone=150, jaw=120, length=200, jaw_angle=1.5}
    it returns "oblong". *)
Theorem classify_face_follows_decision_tree :
  (forall d : FaceDimensions,
     Spec.FaceDimensions_ok d ->
     exists shape,
       classify_face d = Ok shape /\
       forall s,
         Spec.decision_tree (Spec.length_ratio d) (Spec.cheek_to_jaw d)
           (Spec.forehead_to_jaw d) (jaw_angle d) s <-> s = shape) /\
  classify_face Spec.scenario = Ok "oblong".
Proof.
  assert (Hall : forall d : FaceDimensions,
     Spec.FaceDimensions_ok d ->
     exists shape,
       classify_face d = Ok shape /\
       forall s,
         Spec.decision_tree (Spec.length_ratio d) (Spec.cheek_to_jaw d)
           (Spec.forehead_to_jaw d) (jaw_angle d) s <-> s = shape).
  { intros d Hd. destruct (classify_face_in_tree d Hd) as (shape & Hrun & Htree).
    exists shape. split; [exact Hrun |]. intros s. split.
    - intros Hs. exact (decision_tree_functional _ _ _ _ _ _ Hs Htree).
    - by intros ->. }
  split; [exact Hall |].
  destruct (Hall Spec.scenario scenario_ok) as (shape & Hrun & Honly).
  rewrite Hrun. f_equal. symmetry. apply Honly, scenario_in_tree.
Qed.

Lemma classify_face_follows_decision_tree_witness :
  Spec.FaceDimensions_ok Spec.scenario /\
  exists shape,
    classify_face Spec.scenario = Ok shape /\
    forall s,
      Spec.decision_tree (Spec.length_ratio Spec.scenario)
        (Spec.cheek_to_jaw Spec.scenario) (Spec.forehead_to_jaw Spec.scenario)
        (jaw_angle Spec.scenario) s <-> s = shape.
Proof.
  split; [exact scenario_ok |].
  exact (proj1 classify_face_follows_decision_tree Spec.scenario scenario_ok).
Defined.

(* ===================================================================== *)
(** ** Jaw definition score                                              *)
(* ===================================================================== *)

Lemma radians_25_pos : 0 < Np.radians 25.
Proof. unfold Np.radians. pose proof PI_RGT_0. lra. Qed.

Lemma unit_clamp_bounds (x : R) : 0 <= Py.max 0.0 (Py.min 1.0 x) <= 1.
Proof.
  rewrite Py_max_Rmax, Py_min_Rmin.
  unfold Rmax, Rmin. repeat destruct (Rle_dec _ _); lra.
Qed.

(** C10.  For every FaceDimensions value [compute_jaw_definition] lies in
    [0.5, 1.0]: the normalised angle is clamped to [0, 1] first, and
    1 - |n - 0.5| of such an n is never below 0.5. *)
Theorem compute_jaw_definition_range (d : FaceDimensions) :
  0.5 <= compute_jaw_definition d <= 1.0.
Proof.
  unfold compute_jaw_definition; cbv zeta.
  pose proof (unit_clamp_bounds
                ((jaw_angle d - Np.radians 25) / Np.radians 25)) as Hn.
  set (normalized := Py.max 0.0 _) in *.
  unfold Py.abs, Rabs. destruct (Rcase_abs _); lra.
Qed.

(** Both ends of the range are reached: 0.5 at a zero angle, 1.0 at the
    middle of the 25-50 degree window. *)
Lemma compute_jaw_definition_extremes :
  compute_jaw_definition
    {| forehead_width := 0; cheekbone_width := 0; jaw_width := 0;
       face_length := 0; jaw_angle := 0 |} = 0.5 /\
  compute_jaw_definition
    {| forehead_width := 0; cheekbone_width := 0; jaw_width := 0;
       face_length := 0; jaw_angle := Np.radians 37.5 |} = 1.0.
Proof.
  pose proof radians_25_pos as Hr. unfold compute_jaw_definition; simpl.
  split.
  - assert (E : (0 - Np.radians 25) / Np.radians 25 = -1)
      by (apply Rdiv_eq_iff; lra).
    rewrite E.
    rewrite Py_max_Rmax, Py_min_Rmin. unfold Rmax, Rmin.
    repeat destruct (Rle_dec _ _); try lra.
    unfold Py.abs, Rabs. destruct (Rcase_abs _); lra.
  - assert (E : (Np.radians 37.5 - Np.radians 25) / Np.radians 25 = 0.5)
      by (apply Rdiv_eq_iff; unfold Np.radians in *; lra).
    rewrite E.
    rewrite Py_max_Rmax, Py_min_Rmin. unfold Rmax, Rmin.
    repeat destruct (Rle_dec _ _); try lra.
    unfold Py.abs, Rabs. destruct (Rcase_abs _); lra.
Qed.

(* ===================================================================== *)
(** ** Tone buckets                                                      *)
(* ===================================================================== *)

(** C9.  For two typology angles with ita1 <= ita2 the bucket of ita2 is
    never below the bucket of ita1 in the order deep < tan < medium <
    light < very_light. *)
Theorem tone_of_ita_monotone (ita1 ita2 : Np.float64) :
  Np.le ita1 ita2 ->
  exists r1 r2 : nat,
    Spec.tone_rank (tone_of_ita ita1) = Some r1 /\
    Spec.tone_rank (tone_of_ita ita2) = Some r2 /\
    (r1 <= r2)%nat.
Proof.
  intros Hle. unfold tone_of_ita.
  destruct ita1 as [a | | |], ita2 as [b | | |]; simpl in Hle; try done;
    unfold Np.ge; repeat case_bool_decide;
    (do 2 eexists; split; [reflexivity | split; [reflexivity |]]);
    first [ lia | lra ].
Qed.

Lemma tone_of_ita_monotone_witness :
  Np.le (Np.Finite 30) (Np.Finite 50) /\
  exists r1 r2 : nat,
    Spec.tone_rank (tone_of_ita (Np.Finite 30)) = Some r1 /\
    Spec.tone_rank (tone_of_ita (Np.Finite 50)) = Some r2 /\
    (r1 <= r2)%nat.
Proof.
  assert (H : Np.le (Np.Finite 30) (Np.Finite 50)) by (simpl; lra).
  split; [exact H |].
  exact (tone_of_ita_monotone (Np.Finite 30) (Np.Finite 50) H).
Defined.

(* ===================================================================== *)
(** ** Overlay geometry                                                  *)
(* ===================================================================== *)

Lemma fold_min_le_init (xs : list R) (x0 : R) : fold_left Py.min xs x0 <= x0.
Proof.
  revert x0. induction xs as [| x xs IH]; intros x0; simpl; [lra |].
  etransitivity; [apply IH |]. rewrite Py_min_Rmin. apply Rmin_l.
Qed.

Lemma fold_max_ge_init (xs : list R) (x0 : R) : x0 <= fold_left Py.max xs x0.
Proof.
  revert x0. induction xs as [| x xs IH]; intros x0; simpl; [lra |].
  etransitivity; [| apply IH]. rewrite Py_max_Rmax. apply Rmax_l.
Qed.

Lemma fold_min_le_elem (xs : list R) (x0 x : R) :
  x ∈ xs -> fold_left Py.min xs x0 <= x.
Proof.
  revert x0. induction xs as [| y xs IH]; intros x0 Hin; [by inversion Hin |].
  simpl. apply elem_of_cons in Hin as [-> | Hin]; [| by apply IH].
  etransitivity; [apply fold_min_le_init |]. rewrite Py_min_Rmin. apply Rmin_r.
Qed.

Lemma fold_max_ge_elem (xs : list R) (x0 x : R) :
  x ∈ xs -> x <= fold_left Py.max xs x0.
Proof.
  revert x0. induction xs as [| y xs IH]; intros x0 Hin; [by inversion Hin |].
  simpl. apply elem_of_cons in Hin as [-> | Hin]; [| by apply IH].
  etransitivity; [| apply fold_max_ge_init]. rewrite Py_max_Rmax. apply Rmax_r.
Qed.

(** [min(xs)] and [max(xs)] of a non-empty sequence bound each of its
    elements. *)
Lemma min_max_of_bounds (xs : list R) :
  xs <> [] ->
  exists lo hi,
    Py.min_of xs = Ok lo /\ Py.max_of xs = Ok hi /\
    forall x, x ∈ xs -> lo <= x <= hi.
Proof.
  destruct xs as [| x0 rest]; [done | intros _].
  do 2 eexists. split; [reflexivity | split; [reflexivity |]].
  intros x Hin. apply elem_of_cons in Hin as [-> | Hin].
  - split; [apply fold_min_le_init | apply fold_max_ge_init].
  - split; [by apply fold_min_le_elem | by apply fold_max_ge_elem].
Qed.

(** What [generate_overlay] returns on a non-empty landmark list: the box
    is made of the extreme coordinates, which bound every landmark, and
    the zones are those of the shape in that box. *)
Lemma generate_overlay_returns (shape : string) (points : list Point) :
  points <> [] ->
  exists min_x min_y max_x max_y,
    generate_overlay shape points =
      Ok {| bounding_box := (min_x, min_y, max_x, max_y);
            zones := zones_for min_x min_y max_x max_y shape |} /\
    forall p, p ∈ points -> min_x <= p.1 <= max_x /\ min_y <= p.2 <= max_y.
Proof.
  intros Hne.
  assert (Hxs : points.*1 <> []) by (by destruct points).
  assert (Hys : points.*2 <> []) by (by destruct points).
  destruct (min_max_of_bounds _ Hxs) as (min_x & max_x & Hminx & Hmaxx & Hx).
  destruct (min_max_of_bounds _ Hys) as (min_y & max_y & Hminy & Hmaxy & Hy).
  exists min_x, min_y, max_x, max_y. split.
  - unfold generate_overlay, unzip_points.
    destruct points as [| p rest]; [done |].
    cbn [mbind result_bind]. rewrite Hminx, Hmaxx, Hminy, Hmaxy. reflexivity.
  - intros p Hp. split; [apply Hx | apply Hy]; by apply list_elem_of_fmap_2.
Qed.

(** C7.  For every non-empty landmark list (and every shape) the bounding
    box that [generate_overlay] returns has min_x <= max_x and
    min_y <= max_y. *)
Theorem generate_overlay_box_ordered (shape : string) (points : list Point) :
  points <> [] ->
  exists overlay,
    generate_overlay shape points = Ok overlay /\
    let '(min_x, min_y, max_x, max_y) := bounding_box overlay in
    min_x <= max_x /\ min_y <= max_y.
Proof.
  intros Hne.
  destruct (generate_overlay_returns shape points Hne)
    as (min_x & min_y & max_x & max_y & Hrun & Hbox).
  eexists. split; [exact Hrun |]. simpl.
  destruct points as [| p rest]; [done |].
  destruct (Hbox p) as [Hx Hy]; [apply elem_of_cons; by left |]. lra.
Qed.

Lemma generate_overlay_box_ordered_witness :
  [(1, 5); (3, 2)] <> ([] : list Point) /\
  exists overlay,
    generate_overlay "oval" [(1, 5); (3, 2)] = Ok overlay /\
    let '(min_x, min_y, max_x, max_y) := bounding_box overlay in
    min_x <= max_x /\ min_y <= max_y.
Proof.
  assert (H : [(1, 5); (3, 2)] <> ([] : list Point)) by discriminate.
  split; [exact H |].
  exact (generate_overlay_box_ordered "oval" [(1, 5); (3, 2)] H).
Defined.

Section Zones.
Variables min_x min_y max_x max_y : R.

Lemma range_0_360_30 : Py.range 0 360 30 = (fun k => 30 * k)%nat <$> seq 0 12.
Proof. by vm_compute. Qed.

Lemma ellipse_samples_spec (center_y_factor width_factor height_factor : R) :
  ellipse min_x min_y max_x max_y center_y_factor width_factor height_factor =
  Spec.ellipse_samples
    ((min_x + max_x) / 2) (min_y + (max_y - min_y) * center_y_factor)
    ((max_x - min_x) * width_factor / 2) ((max_y - min_y) * height_factor / 2).
Proof.
  unfold ellipse, Spec.ellipse_samples. rewrite range_0_360_30.
  rewrite <- list_fmap_compose. apply list_fmap_ext. intros _ k _.
  unfold compose, Np.radians. cbv zeta. f_equal; ring.
Qed.

Lemma make_zone_trapezoid (zone_type : string) (factor_y height inset : R) :
  Spec.trapezoid (make_zone min_x min_y max_x max_y zone_type factor_y height inset).
Proof. unfold Spec.trapezoid, make_zone. by do 6 eexists. Qed.

(** Whatever the shape, the zones are one quadrilateral and two
    ellipses under the three fixed names. *)
Lemma zones_for_layout (shape : string) :
  exists c1 c2 c3 b1 b2 b3 h1 h2 h3,
    zones_for min_x min_y max_x max_y shape =
    {[ "contour" := make_zone min_x min_y max_x max_y "contour" c1 c2 c3;
       "blush" := ellipse min_x min_y max_x max_y b1 b2 b3;
       "highlight" := ellipse min_x min_y max_x max_y h1 h2 h3 ]}.
Proof.
  unfold zones_for. repeat case_bool_decide; by do 9 eexists.
Qed.

Lemma zones_for_unknown (shape : string) :
  shape ∉ Spec.known_shapes ->
  zones_for min_x min_y max_x max_y shape =
  zones_for min_x min_y max_x max_y "diamond".
Proof.
  intros Hnew. unfold zones_for.
  repeat (case_bool_decide as Hs;
          [ exfalso; apply Hnew; rewrite Hs; unfold Spec.known_shapes;
            set_solver
          | clear Hs ]).
  reflexivity.
Qed.
End Zones.

Lemma generate_overlay_unknown (shape : string) (points : list Point) :
  shape ∉ Spec.known_shapes ->
  generate_overlay shape points = generate_overlay "diamond" points.
Proof.
  intros Hnew. unfold generate_overlay.
  destruct (unzip_points points) as [[xs ys] | e]; [| reflexivity].
  cbn [mbind result_bind].
  destruct (Py.min_of xs) as [min_x |], (Py.max_of xs) as [max_x |],
    (Py.min_of ys) as [min_y |], (Py.max_of ys) as [max_y |];
    try reflexivity.
  cbn [mbind result_bind]. by rewrite zones_for_unknown.
Qed.

(** C4.  For every shape string and every non-empty landmark list
    [generate_overlay] returns an overlay whose zones are exactly
    "contour", "blush" and "highlight": the contour has four points, with
    a horizontal bottom and a horizontal top edge; blush and highlight
    have twelve points each, at 0, 30, ..., 330 degrees on an ellipse
    centred horizontally in the bounding box; and a shape outside the six
    known names gets the zones of "diamond". *)
Theorem generate_overlay_zones (shape : string) (points : list Point) :
  points <> [] ->
  exists overlay contour blush highlight,
    generate_overlay shape points = Ok overlay /\
    dom (zones overlay) = ({[ "contour"; "blush"; "highlight" ]} : gset string) /\
    zones overlay !! "contour" = Some contour /\
    zones overlay !! "blush" = Some blush /\
    zones overlay !! "highlight" = Some highlight /\
    length contour = 4%nat /\ Spec.trapezoid contour /\
    (let '(min_x, _, max_x, _) := bounding_box overlay in
     let center_x := (min_x + max_x) / 2 in
     length blush = 12%nat /\
     (exists center_y radius_x radius_y,
        blush = Spec.ellipse_samples center_x center_y radius_x radius_y) /\
     length highlight = 12%nat /\
     (exists center_y radius_x radius_y,
        highlight = Spec.ellipse_samples center_x center_y radius_x radius_y)) /\
    (shape ∉ Spec.known_shapes ->
     generate_overlay shape points = generate_overlay "diamond" points).
Proof.
  intros Hne.
  destruct (generate_overlay_returns shape points Hne)
    as (min_x & min_y & max_x & max_y & Hrun & _).
  destruct (zones_for_layout min_x min_y max_x max_y shape)
    as (c1 & c2 & c3 & b1 & b2 & b3 & h1 & h2 & h3 & Hzones).
  eexists _, _, _, _. split; [exact Hrun |]. simpl. rewrite Hzones.
  split; [| split; [| split; [| split]]].
  - rewrite !dom_insert_L, dom_singleton_L. set_solver.
  - by simplify_map_eq.
  - by simplify_map_eq.
  - by simplify_map_eq.
  - split; [reflexivity |]. split; [apply make_zone_trapezoid |].
    split.
    + rewrite !ellipse_samples_spec. unfold Spec.ellipse_samples.
      rewrite !length_fmap, !length_seq. eauto 10.
    + apply generate_overlay_unknown.
Qed.

Lemma generate_overlay_zones_witness :
  exists overlay contour blush highlight,
    generate_overlay "pear" [(1, 5); (3, 2)] = Ok overlay /\
    dom (zones overlay) = ({[ "contour"; "blush"; "highlight" ]} : gset string) /\
    zones overlay !! "contour" = Some contour /\
    zones overlay !! "blush" = Some blush /\
    zones overlay !! "highlight" = Some highlight /\
    length contour = 4%nat /\ Spec.trapezoid contour /\
    (let '(min_x, _, max_x, _) := bounding_box overlay in
     let center_x := (min_x + max_x) / 2 in
     length blush = 12%nat /\
     (exists center_y radius_x radius_y,
        blush = Spec.ellipse_samples center_x center_y radius_x radius_y) /\
     length highlight = 12%nat /\
     (exists center_y radius_x radius_y,
        highlight = Spec.ellipse_samples center_x center_y radius_x radius_y)) /\
    ("pear" ∉ Spec.known_shapes ->
     generate_overlay "pear" [(1, 5); (3, 2)] =
     generate_overlay "diamond" [(1, 5); (3, 2)]).
Proof.
  apply (generate_overlay_zones "pear" [(1, 5); (3, 2)]). discriminate.
Defined.

(* ===================================================================== *)
(** ** Dimension measurement                                             *)
(* ===================================================================== *)

Lemma norm_nonneg (u : R * R) : 0 <= Np.norm u.
Proof. apply sqrt_pos. Qed.

Lemma distance_nonneg (a b : Point) : 0 <= distance a b.
Proof. apply norm_nonneg. Qed.

(** The epsilon keeps the denominator of the cosine away from zero, even
    when the chin coincides with a jaw corner. *)
Lemma cosine_denominator_pos (jaw_left chin jaw_right : Point) :
  1e-6 <= cosine_denominator jaw_left chin jaw_right.
Proof.
  unfold cosine_denominator.
  pose proof (norm_nonneg (Np.sub jaw_left chin)).
  pose proof (norm_nonneg (Np.sub jaw_right chin)). nra.
Qed.

Lemma clip_unit_bounds (x : R) : -1 <= Np.clip x (-1.0) 1.0 <= 1.
Proof.
  unfold Np.clip, Rmin, Rmax. repeat destruct (Rle_dec _ _); lra.
Qed.

Lemma getitem_in_range {A} (l : list A) (i : nat) :
  (i < length l)%nat -> exists a, l !! i = Some a /\ Py.getitem l i = Ok a.
Proof.
  intros Hi. destruct (lookup_lt_is_Some_2 l i Hi) as [a Ha].
  exists a. split; [exact Ha |]. unfold Py.getitem. by rewrite Ha.
Qed.

Lemma getitem_out_of_range {A} (l : list A) (i : nat) :
  (length l <= i)%nat -> Py.getitem l i = Raise Py.IndexError.
Proof.
  intros Hi. unfold Py.getitem. by rewrite (lookup_ge_None_2 l i Hi).
Qed.

Lemma sample_landmarks_length : length Spec.sample_landmarks = 468%nat.
Proof. unfold Spec.sample_landmarks. by rewrite length_fmap, length_seq. Qed.

(** C5.  On every landmark list that has the indices the measurer reads,
    [calculate_dimensions] returns a value; its four widths and lengths
    are non-negative, and [jaw_angle] is the arccosine of a cosine clamped
    to [-1, 1], hence in [0, pi]. *)
Theorem calculate_dimensions_returns (points : list Point) :
  (forall i, i ∈ Spec.dimension_indices -> (i < length points)%nat) ->
  exists d,
    calculate_dimensions points = Ok d /\
    0 <= forehead_width d /\ 0 <= cheekbone_width d /\
    0 <= jaw_width d /\ 0 <= face_length d /\
    0 <= jaw_angle d <= PI /\
    exists cosine, -1 <= cosine <= 1 /\ jaw_angle d = acos cosine.
Proof.
  intros Hidx. unfold calculate_dimensions.
  repeat match goal with
    | |- context [Py.getitem points ?i] =>
        let H := fresh "H" in
        destruct (getitem_in_range points i) as (? & _ & H);
        [ apply Hidx; unfold Spec.dimension_indices; set_solver
        | rewrite H; clear H; cbn [mbind result_bind] ]
    end.
  eexists. split; [reflexivity |]. cbn [forehead_width cheekbone_width
    jaw_width face_length jaw_angle].
  repeat split; try apply distance_nonneg; try apply acos_bound.
  eexists. split; [apply clip_unit_bounds | reflexivity].
Qed.

Lemma calculate_dimensions_returns_witness :
  exists d,
    calculate_dimensions Spec.sample_landmarks = Ok d /\
    0 <= forehead_width d /\ 0 <= cheekbone_width d /\
    0 <= jaw_width d /\ 0 <= face_length d /\
    0 <= jaw_angle d <= PI /\
    exists cosine, -1 <= cosine <= 1 /\ jaw_angle d = acos cosine.
Proof.
  apply (calculate_dimensions_returns Spec.sample_landmarks).
  intros i Hi. rewrite sample_landmarks_length.
  unfold Spec.dimension_indices in Hi.
  repeat (apply elem_of_cons in Hi as [-> | Hi]; [lia |]).
  by apply elem_of_nil in Hi.
Defined.

(** A landmark list too short for one of the indices makes the measurer
    raise [IndexError]: the contract of section 6 is a precondition of the
    theorem above, not something the code checks. *)
Lemma calculate_dimensions_short (points : list Point) :
  (length points <= 108)%nat ->
  calculate_dimensions points = Raise Py.IndexError.
Proof.
  intros Hlen. unfold calculate_dimensions.
  by rewrite (getitem_out_of_range points 108 Hlen).
Qed.

(* ===================================================================== *)
(** ** Symmetry                                                          *)
(* ===================================================================== *)

Lemma max3_floor (a b c : R) : c <= Py.max3 a b c.
Proof. unfold Py.max3. rewrite !Py_max_Rmax. apply Rmax_r. Qed.

Lemma max_floor (a b : R) : b <= Py.max a b.
Proof. rewrite Py_max_Rmax. apply Rmax_r. Qed.

Lemma max3_dominates (a b c : R) : a <= Py.max3 a b c /\ b <= Py.max3 a b c.
Proof.
  unfold Py.max3. rewrite !Py_max_Rmax.
  pose proof (Rmax_l (Rmax a b) c). pose proof (Rmax_l a b).
  pose proof (Rmax_r a b). lra.
Qed.

Lemma atan_nonneg (x : R) : 0 <= x -> 0 <= atan x.
Proof.
  intros [Hx | <-]; [| rewrite atan_0; lra].
  left. rewrite <- atan_0. by apply atan_increasing.
Qed.

Lemma arctan2_first_quadrant (y x : R) :
  0 <= y -> 0 < x -> 0 <= Np.arctan2 y x < PI / 2.
Proof.
  intros Hy Hx. unfold Np.arctan2. rewrite bool_decide_eq_true_2 by exact Hx.
  split; [| apply atan_bound].
  apply atan_nonneg. apply Rmult_le_pos; [exact Hy |].
  left. by apply Rinv_0_lt_compat.
Qed.

Lemma degrees_bounds (x : R) : 0 <= x < PI / 2 -> 0 <= Np.degrees x < 90.
Proof.
  intros [Hlo Hhi]. unfold Np.degrees. pose proof PI_RGT_0 as Hpi.
  assert (Hk : 0 < 180 / PI) by (apply Rdiv_lt_0_compat; lra).
  split; [nra |].
  replace 90 with (PI / 2 * (180 / PI)) by (field; lra). nra.
Qed.

(** The quotient [balance_delta] is a genuine one, and lies in [0, 1]. *)
Lemma balance_delta_bounds (left_dist right_dist : R) :
  0 <= left_dist -> 0 <= right_dist ->
  0 <= Py.abs (left_dist - right_dist) / Py.max3 left_dist right_dist 1e-6 <= 1.
Proof.
  intros Hl Hr.
  pose proof (max3_floor left_dist right_dist 1e-6) as Hfloor.
  pose proof (max3_dominates left_dist right_dist 1e-6) as [Hml Hmr].
  set (m := Py.max3 _ _ _) in *.
  assert (Hm : 0 < m) by lra.
  split.
  - apply Rmult_le_pos; [apply Rabs_pos | left; by apply Rinv_0_lt_compat].
  - apply Rdiv_le_iff; [exact Hm |].
    unfold Py.abs, Rabs. destruct (Rcase_abs _); lra.
Qed.

(** C6.  For every landmark list, short or long, and every bounding box
    [compute_symmetry] returns a score in [0, 1] and an eye-alignment
    difference that is a non-negative number of degrees (below 90). *)
Theorem compute_symmetry_ranges (points : list Point) (box : R * R * R * R) :
  0 <= score (compute_symmetry points box) <= 1 /\
  0 <= eye_delta (compute_symmetry points box) < 90.
Proof.
  destruct box as [[[min_x min_y] max_x] max_y].
  unfold compute_symmetry. cbv zeta. cbn [score eye_delta].
  split.
  - match goal with
    | |- context [Py.abs (?l - ?r) / _] =>
        pose proof (balance_delta_bounds l r (norm_nonneg _) (norm_nonneg _))
          as Hdelta
    end.
    set (delta := Py.abs _ / _) in *.
    rewrite Py_max_Rmax, Py_min_Rmin. unfold Rmax, Rmin.
    repeat destruct (Rle_dec _ _); lra.
  - apply degrees_bounds, arctan2_first_quadrant.
    + apply Rabs_pos.
    + pose proof (max_floor (max_x - min_x) 1e-6). lra.
Qed.

(** With no landmark at all every point falls back to the box, whose
    centre is equidistant from its two edges: the score is 1 and the eyes
    are level. *)
Lemma compute_symmetry_fallback :
  compute_symmetry [] (0, 0, 4, 2) =
  {| score := score (compute_symmetry [] (0, 0, 4, 2));
     description := "Highly balanced proportions across both sides of the face.";
     guidance := "Mirror highlight and blush placement to emphasize your natural balance.";
     eye_delta := 0 |}.
Proof.
  unfold compute_symmetry. cbv zeta. cbn [score default lookup list_lookup fst snd].
  set (nose := ((0 + 4) / 2, (0 + 2) / 2)).
  assert (Hsame : Np.norm (Np.sub (0, (0 + 2) / 2) nose) =
                  Np.norm (Np.sub (4, (0 + 2) / 2) nose)).
  { unfold Np.norm, Np.sub, nose. simpl. f_equal. lra. }
  rewrite Hsame. set (dist := Np.norm _).
  assert (Hdelta : Py.abs (dist - dist) / Py.max3 dist dist 1e-6 = 0).
  { unfold Py.abs. replace (dist - dist) with 0 by lra. rewrite Rabs_R0.
    unfold Rdiv. apply Rmult_0_l. }
  rewrite Hdelta.
  assert (Hscore : Py.max 0.0 (1.0 - Py.min 1.0 0) = 1).
  { rewrite Py_max_Rmax, Py_min_Rmin. unfold Rmax, Rmin.
    repeat destruct (Rle_dec _ _); lra. }
  rewrite Hscore.
  rewrite !bool_decide_eq_true_2 by lra.
  f_equal.
  unfold Py.abs. replace ((0 + 2) / 2 - (0 + 2) / 2) with 0 by lra.
  rewrite Rabs_R0.
  unfold Np.arctan2, Np.degrees.
  pose proof (max_floor (4 - 0) 1e-6).
  rewrite bool_decide_eq_true_2 by lra.
  unfold Rdiv at 1. rewrite Rmult_0_l, atan_0. lra.
Qed.

(* ===================================================================== *)
(** ** Recommendations                                                   *)
(* ===================================================================== *)

Lemma shape_guidance_known (shape : string) :
  shape ∈ Spec.known_shapes <-> is_Some (shape_guidance !! shape).
Proof.
  unfold Spec.known_shapes, shape_guidance. split.
  - intros Hin.
    repeat (apply elem_of_cons in Hin as [-> | Hin]; [by simplify_map_eq |]).
    by apply elem_of_nil in Hin.
  - intros [g Hg].
    repeat (apply lookup_insert_Some in Hg as [[<- _] | [_ Hg]]; [set_solver |]).
    apply lookup_singleton_Some in Hg as [<- _]. set_solver.
Qed.

Lemma palettes_known (undertone : string) :
  undertone ∈ Spec.known_undertones <-> is_Some (palettes !! undertone).
Proof.
  unfold Spec.known_undertones, palettes. split.
  - intros Hin.
    repeat (apply elem_of_cons in Hin as [-> | Hin]; [by simplify_map_eq |]).
    by apply elem_of_nil in Hin.
  - intros [g Hg].
    repeat (apply lookup_insert_Some in Hg as [[<- _] | [_ Hg]]; [set_solver |]).
    apply lookup_singleton_Some in Hg as [<- _]. set_solver.
Qed.

(** Every guidance entry has the three keys [build_recommendations]
    reads, and every palette the three keys [shade_palette] reads. *)
Lemma shape_guidance_complete (shape : string) (g : gmap string string) :
  shape_guidance !! shape = Some g ->
  is_Some (g !! "blush") /\ is_Some (g !! "contour") /\ is_Some (g !! "highlight").
Proof.
  unfold shape_guidance. intros Hg.
  repeat (apply lookup_insert_Some in Hg as [[_ <-] | [_ Hg]];
          [by simplify_map_eq |]).
  apply lookup_singleton_Some in Hg as [_ <-]. by simplify_map_eq.
Qed.

Lemma palettes_complete (undertone : string) (p : gmap string (list string)) :
  palettes !! undertone = Some p ->
  is_Some (p !! "blush") /\ is_Some (p !! "eyes") /\ is_Some (p !! "lips").
Proof.
  unfold palettes. intros Hp.
  repeat (apply lookup_insert_Some in Hp as [[_ <-] | [_ Hp]];
          [by simplify_map_eq |]).
  apply lookup_singleton_Some in Hp as [_ <-]. by simplify_map_eq.
Qed.

Lemma dict_getitem_lookup {A} (d : gmap string A) (key : string) (a : A) :
  d !! key = Some a -> Py.dict_getitem d key = Ok a.
Proof. intros Ha. unfold Py.dict_getitem. by rewrite Ha. Qed.

Lemma dict_getitem_Some {A} (d : gmap string A) (key : string) :
  is_Some (d !! key) -> exists a, Py.dict_getitem d key = Ok a.
Proof. intros [a Ha]. exists a. unfold Py.dict_getitem. by rewrite Ha. Qed.

Lemma dict_get_known {A} (d : gmap string A) (key fallback : string) (a : A) :
  d !! fallback = Some a ->
  exists b, d !! (if bool_decide (is_Some (d !! key)) then key else fallback) = Some b /\
            Py.dict_get d key a = b.
Proof.
  intros Hfb. unfold Py.dict_get. destruct (d !! key) as [b |] eqn:Hkey.
  - rewrite bool_decide_eq_true_2 by eauto. by exists b.
  - rewrite bool_decide_eq_false_2 by (by intros [? ?]). by exists a.
Qed.

Lemma shade_palette_returns (undertone category : string) :
  category ∈ ["blush"; "eyes"; "lips"] ->
  exists shades, shade_palette undertone category = Ok shades.
Proof.
  intros Hcat. unfold shade_palette.
  assert (Hn : is_Some (palettes !! "neutral")).
  { apply palettes_known. unfold Spec.known_undertones.
    do 2 apply list_elem_of_further. apply list_elem_of_here. }
  destruct Hn as [neutral Hn]. rewrite (dict_getitem_lookup _ _ _ Hn).
  cbn [mbind result_bind].
  destruct (dict_get_known palettes undertone "neutral" neutral Hn) as (p & Hp & ->).
  apply dict_getitem_Some.
  destruct (palettes_complete _ p Hp) as (Hblush & Heyes & Hlips).
  apply elem_of_cons in Hcat as [-> | Hcat]; [exact Hblush |].
  apply elem_of_cons in Hcat as [-> | Hcat]; [exact Heyes |].
  apply elem_of_cons in Hcat as [-> | Hcat]; [exact Hlips |].
  by apply elem_of_nil in Hcat.
Qed.

Lemma shade_palette_unknown (undertone category : string) :
  undertone ∉ Spec.known_undertones ->
  shade_palette undertone category = shade_palette "neutral" category.
Proof.
  intros Hnew. unfold shade_palette, Py.dict_get.
  destruct (palettes !! undertone) as [p |] eqn:Hp.
  { exfalso. apply Hnew, palettes_known. eauto. }
  unfold Py.dict_getitem.
  destruct (palettes !! "neutral") as [neutral |]; reflexivity.
Qed.

(** The dictionary [build_recommendations] returns: the three guidance
    texts depend on the shape alone, the three shade lists on the
    undertone. *)
Lemma build_recommendations_returns (shape : string) :
  exists blush_details contour_details highlight_details,
  forall undertone, exists blush_shades eyes_shades lips_shades,
    build_recommendations shape undertone =
    Ok {[ "blush" :=
            {[ "details" := Text blush_details;
               "suggested_shades" := Items blush_shades ]};
          "contour" :=
            {[ "details" := Text contour_details;
               "suggested_finishes" := Items contour_finishes ]};
          "highlight" :=
            {[ "details" := Text highlight_details;
               "suggested_finishes" := Items highlight_finishes ]};
          "eyes" :=
            {[ "details" := Text "Choose shades that complement your undertone and layer from matte to shimmer.";
               "suggested_shades" := Items eyes_shades ]};
          "lips" :=
            {[ "details" := Text "Match lip families to undertone; adjust intensity for day or night looks.";
               "suggested_shades" := Items lips_shades ]} ]}.
Proof.
  assert (Hoval : is_Some (shape_guidance !! "oval")).
  { apply shape_guidance_known. unfold Spec.known_shapes.
    apply list_elem_of_further, list_elem_of_here. }
  destruct Hoval as [oval Hoval].
  destruct (dict_get_known shape_guidance shape "oval" oval Hoval)
    as (base & Hbase & Hget).
  destruct (shape_guidance_complete _ base Hbase)
    as ([bd Hbd] & [cd Hcd] & [hd Hhd]).
  exists bd, cd, hd. intros undertone.
  destruct (shade_palette_returns undertone "blush") as [bs Hbs];
    [apply list_elem_of_here |].
  destruct (shade_palette_returns undertone "eyes") as [es Hes];
    [apply list_elem_of_further, list_elem_of_here |].
  destruct (shade_palette_returns undertone "lips") as [ls Hls];
    [do 2 apply list_elem_of_further; apply list_elem_of_here |].
  exists bs, es, ls. unfold build_recommendations.
  rewrite (dict_getitem_lookup _ _ _ Hoval). cbn [mbind result_bind].
  rewrite Hget.
  rewrite (dict_getitem_lookup _ _ _ Hbd), (dict_getitem_lookup _ _ _ Hcd),
    (dict_getitem_lookup _ _ _ Hhd), Hbs, Hes, Hls.
  reflexivity.
Qed.

Lemma build_recommendations_unknown_shape (shape undertone : string) :
  shape ∉ Spec.known_shapes ->
  build_recommendations shape undertone = build_recommendations "oval" undertone.
Proof.
  intros Hnew. unfold build_recommendations.
  destruct (Py.dict_getitem shape_guidance "oval") as [oval |] eqn:Hoval;
    [| reflexivity].
  cbn [mbind result_bind].
  assert (Hmiss : Py.dict_get shape_guidance shape oval = oval).
  { unfold Py.dict_get. destruct (shape_guidance !! shape) as [g |] eqn:Hg;
      [| reflexivity].
    exfalso. apply Hnew, shape_guidance_known. eauto. }
  assert (Hhit : Py.dict_get shape_guidance "oval" oval = oval).
  { unfold Py.dict_get, Py.dict_getitem in *.
    destruct (shape_guidance !! "oval"); by simplify_eq. }
  by rewrite Hmiss, Hhit.
Qed.

Lemma build_recommendations_unknown_undertone (shape undertone : string) :
  undertone ∉ Spec.known_undertones ->
  build_recommendations shape undertone = build_recommendations shape "neutral".
Proof.
  intros Hnew. unfold build_recommendations.
  by rewrite !(shade_palette_unknown undertone) by exact Hnew.
Qed.

(** Which entry of a table [d.get(key, d[fallback])] reads. *)
Lemma dict_get_selects {A} (d : gmap string A) (keys : list string)
  (key fallback : string) (a : A) :
  (forall k, k ∈ keys <-> is_Some (d !! k)) ->
  d !! fallback = Some a ->
  d !! (if bool_decide (key ∈ keys) then key else fallback)
    = Some (Py.dict_get d key a).
Proof.
  intros Hkeys Hfb. unfold Py.dict_get. destruct (d !! key) as [b |] eqn:Hkey.
  - rewrite bool_decide_eq_true_2 by (apply Hkeys; rewrite Hkey; eauto). done.
  - rewrite bool_decide_eq_false_2; [done |].
    intros Hin. apply Hkeys in Hin. rewrite Hkey in Hin. by destruct Hin.
Qed.

(** The five entries of the result, read off the two tables: the guidance
    entry of the shape, or of "oval" for an unknown shape, and the palette
    of the undertone, or of "neutral" for an unknown undertone. *)
Lemma build_recommendations_entries (shape undertone : string) :
  exists (guidance : gmap string string) (palette : gmap string (list string))
         (blush_details contour_details highlight_details : string)
         (blush_shades eyes_shades lips_shades : list string),
    shape_guidance
      !! (if bool_decide (shape ∈ Spec.known_shapes) then shape else "oval")
      = Some guidance /\
    palettes
      !! (if bool_decide (undertone ∈ Spec.known_undertones)
          then undertone else "neutral")
      = Some palette /\
    guidance !! "blush" = Some blush_details /\
    guidance !! "contour" = Some contour_details /\
    guidance !! "highlight" = Some highlight_details /\
    palette !! "blush" = Some blush_shades /\
    palette !! "eyes" = Some eyes_shades /\
    palette !! "lips" = Some lips_shades /\
    build_recommendations shape undertone =
    Ok {[ "blush" :=
            {[ "details" := Text blush_details;
               "suggested_shades" := Items blush_shades ]};
          "contour" :=
            {[ "details" := Text contour_details;
               "suggested_finishes" := Items contour_finishes ]};
          "highlight" :=
            {[ "details" := Text highlight_details;
               "suggested_finishes" := Items highlight_finishes ]};
          "eyes" :=
            {[ "details" := Text "Choose shades that complement your undertone and layer from matte to shimmer.";
               "suggested_shades" := Items eyes_shades ]};
          "lips" :=
            {[ "details" := Text "Match lip families to undertone; adjust intensity for day or night looks.";
               "suggested_shades" := Items lips_shades ]} ]}.
Proof.
  assert (Hoval : is_Some (shape_guidance !! "oval")).
  { apply shape_guidance_known. unfold Spec.known_shapes.
    apply list_elem_of_further, list_elem_of_here. }
  assert (Hneutral : is_Some (palettes !! "neutral")).
  { apply palettes_known. unfold Spec.known_undertones.
    do 2 apply list_elem_of_further. apply list_elem_of_here. }
  destruct Hoval as [oval Hoval], Hneutral as [neutral Hneutral].
  pose proof (dict_get_selects shape_guidance Spec.known_shapes shape "oval"
                oval shape_guidance_known Hoval) as Hguidance.
  pose proof (dict_get_selects palettes Spec.known_undertones undertone
                "neutral" neutral palettes_known Hneutral) as Hpalette.
  set (guidance := Py.dict_get shape_guidance shape oval) in *.
  set (palette := Py.dict_get palettes undertone neutral) in *.
  destruct (shape_guidance_complete _ guidance Hguidance)
    as ([bd Hbd] & [cd Hcd] & [hd Hhd]).
  destruct (palettes_complete _ palette Hpalette)
    as ([bs Hbs] & [es Hes] & [ls Hls]).
  exists guidance, palette, bd, cd, hd, bs, es, ls.
  do 8 (split; [assumption |]).
  unfold build_recommendations, shade_palette.
  rewrite (dict_getitem_lookup _ _ _ Hoval), (dict_getitem_lookup _ _ _ Hneutral).
  cbn [mbind result_bind]. fold guidance palette.
  rewrite (dict_getitem_lookup _ _ _ Hbd), (dict_getitem_lookup _ _ _ Hcd),
    (dict_getitem_lookup _ _ _ Hhd), (dict_getitem_lookup _ _ _ Hbs),
    (dict_getitem_lookup _ _ _ Hes), (dict_getitem_lookup _ _ _ Hls).
  reflexivity.
Qed.

(** C8.  For every shape string and every undertone string
    [build_recommendations] returns a dictionary whose keys are exactly
    the five categories.  Its entries are read off the two tables: the
    "blush", "contour" and "highlight" details are the texts of the
    shape's guidance entry, which for a shape outside the six known ones
    is the entry of "oval", with its three texts; the "blush", "eyes" and
    "lips" shades are the lists of the undertone's palette, which for an
    undertone outside the three known ones is the palette of "neutral",
    with its three lists; "eyes" and "lips" carry their two fixed texts;
    and "contour" and "highlight" carry the two fixed finish lists and
    are the same for every undertone. *)
Theorem build_recommendations_lookup (shape undertone : string) :
  exists (recs : gmap string (gmap string value))
         (guidance : gmap string string) (palette : gmap string (list string))
         (blush_details contour_details highlight_details : string)
         (blush_shades eyes_shades lips_shades : list string),
    build_recommendations shape undertone = Ok recs /\
    dom recs = Spec.categories /\
    (* the table entries that are read *)
    shape_guidance
      !! (if bool_decide (shape ∈ Spec.known_shapes) then shape else "oval")
      = Some guidance /\
    palettes
      !! (if bool_decide (undertone ∈ Spec.known_undertones)
          then undertone else "neutral")
      = Some palette /\
    guidance !! "blush" = Some blush_details /\
    guidance !! "contour" = Some contour_details /\
    guidance !! "highlight" = Some highlight_details /\
    palette !! "blush" = Some blush_shades /\
    palette !! "eyes" = Some eyes_shades /\
    palette !! "lips" = Some lips_shades /\
    (* the five entries of the result *)
    recs !! "blush" =
      Some {[ "details" := Text blush_details;
              "suggested_shades" := Items blush_shades ]} /\
    recs !! "contour" =
      Some {[ "details" := Text contour_details;
              "suggested_finishes" := Items contour_finishes ]} /\
    recs !! "highlight" =
      Some {[ "details" := Text highlight_details;
              "suggested_finishes" := Items highlight_finishes ]} /\
    recs !! "eyes" =
      Some {[ "details" := Text "Choose shades that complement your undertone and layer from matte to shimmer.";
              "suggested_shades" := Items eyes_shades ]} /\
    recs !! "lips" =
      Some {[ "details" := Text "Match lip families to undertone; adjust intensity for day or night looks.";
              "suggested_shades" := Items lips_shades ]} /\
    (* the fallbacks, spelled out *)
    (shape ∉ Spec.known_shapes ->
     blush_details = "Apply to apples and blend outward along cheekbones." /\
     contour_details = "Light contour under cheekbones and temples." /\
     highlight_details = "Highlight cheekbone tops, brow bone, and cupid's bow." /\
     build_recommendations shape undertone =
     build_recommendations "oval" undertone) /\
    (undertone ∉ Spec.known_undertones ->
     blush_shades = ["Dusty rose"; "Neutral coral"; "Soft mauve"] /\
     eyes_shades = ["Champagne"; "Neutral brown"; "Soft copper"] /\
     lips_shades = ["Rosewood"; "Balanced nude"; "Classic red"] /\
     build_recommendations shape undertone =
     build_recommendations shape "neutral") /\
    (* finishes are fixed and do not depend on the undertone *)
    recs !! "contour" ≫= Spec.suggestions "suggested_finishes"
      = Some contour_finishes /\
    recs !! "highlight" ≫= Spec.suggestions "suggested_finishes"
      = Some highlight_finishes /\
    (forall other recs',
       build_recommendations shape other = Ok recs' ->
       recs' !! "contour" = recs !! "contour" /\
       recs' !! "highlight" = recs !! "highlight").
Proof.
  destruct (build_recommendations_entries shape undertone)
    as (guidance & palette & bd & cd & hd & bs & es & ls
        & Hguidance & Hpalette & Hbd & Hcd & Hhd & Hbs & Hes & Hls & Hrun).
  eexists _, guidance, palette, bd, cd, hd, bs, es, ls.
  split; [exact Hrun |].
  split; [unfold Spec.categories; rewrite !dom_insert_L, dom_singleton_L;
          set_solver |].
  do 8 (split; [assumption |]).
  do 5 (split; [by simplify_map_eq |]).
  split; [| split; [| split; [| split]]].
  - intros Hnew. rewrite bool_decide_eq_false_2 in Hguidance by exact Hnew.
    unfold shape_guidance in Hguidance. simplify_map_eq.
    split_and!; try done. by apply build_recommendations_unknown_shape.
  - intros Hnew. rewrite bool_decide_eq_false_2 in Hpalette by exact Hnew.
    unfold palettes in Hpalette. simplify_map_eq.
    split_and!; try done. by apply build_recommendations_unknown_undertone.
  - by simplify_map_eq.
  - by simplify_map_eq.
  - intros other recs' Hother.
    destruct (build_recommendations_entries shape other)
      as (guidance' & palette' & bd' & cd' & hd' & bs' & es' & ls'
          & Hguidance' & _ & _ & Hcd' & Hhd' & _ & _ & _ & Hrun').
    rewrite Hrun' in Hother. injection Hother as <-.
    assert (guidance' = guidance) as -> by congruence.
    assert (cd' = cd) as -> by congruence.
    assert (hd' = hd) as -> by congruence.
    by simplify_map_eq.
Qed.

(** One known shape with one known undertone, spelled out. *)
Lemma build_recommendations_heart_cool :
  exists recs,
    build_recommendations "heart" "cool" = Ok recs /\
    recs !! "blush" =
      Some {[ "details" := Text "Place blush lower on cheeks and blend upward.";
              "suggested_shades" := Items ["Rose"; "Soft berry"; "Cool pink"] ]} /\
    recs !! "contour" =
      Some {[ "details" := Text "Shade sides of forehead and lightly under cheekbones.";
              "suggested_finishes" :=
                Items ["Soft matte stick"; "Sheer cream"; "Buildable powder"] ]} /\
    recs !! "lips" =
      Some {[ "details" := Text "Match lip families to undertone; adjust intensity for day or night looks.";
              "suggested_shades" := Items ["Berry"; "Cool mauve"; "Blue-based red"] ]}.
Proof.
  destruct (build_recommendations_entries "heart" "cool")
    as (guidance & palette & bd & cd & hd & bs & es & ls
        & Hguidance & Hpalette & Hbd & Hcd & Hhd & Hbs & Hes & Hls & Hrun).
  rewrite bool_decide_eq_true_2 in Hguidance
    by (unfold Spec.known_shapes; set_solver).
  rewrite bool_decide_eq_true_2 in Hpalette
    by (unfold Spec.known_undertones; set_solver).
  unfold shape_guidance in Hguidance. unfold palettes in Hpalette.
  simplify_map_eq. eexists. split; [exact Hrun |].
  unfold contour_finishes. by simplify_map_eq.
Qed.

(* ===================================================================== *)
(** ** Skin tone                                                         *)
(* ===================================================================== *)

Lemma gamma_correct_decoded (channel : R) :
  Spec.gamma_decoded channel (gamma_correct channel).
Proof.
  unfold Spec.gamma_decoded, gamma_correct.
  case_bool_decide; split; intros; first [reflexivity | lra].
Qed.

Lemma lab_f_nonlinearity (t : R) : Spec.lab_nonlinearity t (lab_f t).
Proof.
  unfold Spec.lab_nonlinearity, lab_f.
  case_bool_decide; split; intros; first [reflexivity | lra].
Qed.

Lemma rgb_to_lab_spec (rgb : R * R * R) : Spec.srgb_to_lab rgb (rgb_to_lab rgb).
Proof.
  destruct rgb as [[r g] b]. unfold Spec.srgb_to_lab, rgb_to_lab.
  cbv zeta. cbn [Spec.srgb_to_xyz Spec.d65_white].
  set (rl := gamma_correct r). set (gl := gamma_correct g).
  set (bl := gamma_correct b).
  exists rl, gl, bl,
    (lab_f ((0.4124 * rl + 0.3576 * gl + 0.1805 * bl) / 0.95047)),
    (lab_f (0.2126 * rl + 0.7152 * gl + 0.0722 * bl)),
    (lab_f ((0.0193 * rl + 0.1192 * gl + 0.9505 * bl) / 1.08883)).
  split_and!; try apply gamma_correct_decoded; try apply lab_f_nonlinearity;
    [| reflexivity].
  rewrite Rdiv_1_r. apply lab_f_nonlinearity.
Qed.

Lemma typology_angle_spec (l a b : R) : typology_angle (l, a, b) = Spec.ita l b.
Proof.
  unfold typology_angle, Spec.ita, Spec.epsilon.
  by replace (l - 50.0) with (l - 50) by lra.
Qed.

(** Where the denominator is not zero the angle is the ordinary real
    one. *)
Lemma ita_finite (l b : R) :
  b + Spec.epsilon <> 0 ->
  Spec.ita l b = Np.Finite (atan ((l - 50) / (b + Spec.epsilon)) * (180 / PI)).
Proof.
  intros Hb. unfold Spec.ita, Np.divide.
  by rewrite bool_decide_eq_false_2.
Qed.

(** Where it is zero the angle is +90, -90 or a NaN. *)
Lemma ita_degenerate (l b : R) :
  b + Spec.epsilon = 0 ->
  tone_of_ita (Spec.ita l b) = if bool_decide (50 < l) then "very_light" else "deep".
Proof.
  intros Hb. unfold Spec.ita, Np.divide. rewrite bool_decide_eq_true_2 by exact Hb.
  pose proof PI_RGT_0 as Hpi.
  assert (H90 : Np.degrees (PI / 2) = 90)
    by (unfold Np.degrees; field; lra).
  assert (Hm90 : Np.degrees (- (PI / 2)) = -90)
    by (unfold Np.degrees; field; lra).
  unfold tone_of_ita.
  repeat case_bool_decide; try lra; cbn [Np.arctan Np.degrees64 Np.ge];
    rewrite ?H90, ?Hm90; repeat case_bool_decide; first [reflexivity | lra].
Qed.

Lemma ge_at_least (x : Np.float64) (c : R) :
  Np.ge x c = true <-> Spec.at_least x c.
Proof.
  unfold Np.ge, Spec.at_least, Np.le.
  destruct x; rewrite ?bool_decide_eq_true; split; intros; first [lra | done].
Qed.

Lemma tone_of_ita_rule (ita : Np.float64) : Spec.tone_rule ita (tone_of_ita ita).
Proof.
  unfold tone_of_ita.
  destruct (Np.ge ita 55) eqn:H55; [apply Spec.tone_very_light; by apply ge_at_least |].
  destruct (Np.ge ita 41) eqn:H41;
    [apply Spec.tone_light; rewrite <- ge_at_least; congruence |].
  destruct (Np.ge ita 28) eqn:H28;
    [apply Spec.tone_medium; rewrite <- ge_at_least; congruence |].
  destruct (Np.ge ita 10) eqn:H10;
    [apply Spec.tone_tan; rewrite <- ge_at_least; congruence |].
  apply Spec.tone_deep; rewrite <- ge_at_least; congruence.
Qed.

Lemma at_least_weaken (x : Np.float64) (c c' : R) :
  c' <= c -> Spec.at_least x c -> Spec.at_least x c'.
Proof.
  unfold Spec.at_least, Np.le. destruct x; intros; first [lra | done].
Qed.

Lemma tone_rule_functional (ita : Np.float64) (t1 t2 : string) :
  Spec.tone_rule ita t1 -> Spec.tone_rule ita t2 -> t1 = t2.
Proof.
  intros H1 H2.
  destruct H1; inversion H2; subst; try reflexivity; exfalso;
    match goal with
    | Hlt : ~ Spec.at_least ita ?c', Hge : Spec.at_least ita ?c |- _ =>
        apply Hlt, (at_least_weaken ita c c'); [lra | exact Hge]
    end.
Qed.

Lemma undertone_of_lab_rule (l a b : R) :
  Spec.undertone_rule a b (undertone_of_lab (l, a, b)).
Proof.
  unfold undertone_of_lab. rewrite <- bool_decide_and.
  repeat case_bool_decide.
  - apply Spec.undertone_cool; tauto.
  - by apply Spec.undertone_warm.
  - by apply Spec.undertone_neutral.
Qed.

Lemma undertone_rule_functional (a b : R) (u1 u2 : string) :
  Spec.undertone_rule a b u1 -> Spec.undertone_rule a b u2 -> u1 = u2.
Proof.
  intros H1 H2. destruct H1; inversion H2; subst; try reflexivity; lra.
Qed.

(** C2.  For every averaged cheek RGB value the tone and the undertone
    are read off the Lab triple that the sRGB to XYZ to Lab conversion
    gives for the RGB value divided by 255: the tone is the bucket of
    ITA = degrees(atan((L - 50) / (b + 1e-6))) under the thresholds 55,
    41, 28 and 10, and the undertone is cool when a < -2 and b < 10, warm
    when b > 15, neutral otherwise; no other tone or undertone fits. *)
Theorem skin_tone_of_average_classification (r g b : R) :
  exists (tone undertone : string) (sample : Z * Z * Z) (l a b_val : R),
    skin_tone_of_average (r, g, b) = (tone, undertone, sample) /\
    Spec.srgb_to_lab (r / 255, g / 255, b / 255) (l, a, b_val) /\
    (forall t, Spec.tone_rule (Spec.ita l b_val) t <-> t = tone) /\
    (b_val + Spec.epsilon <> 0 ->
     Spec.ita l b_val =
     Np.Finite (atan ((l - 50) / (b_val + Spec.epsilon)) * (180 / PI))) /\
    (forall u, Spec.undertone_rule a b_val u <-> u = undertone).
Proof.
  unfold skin_tone_of_average.
  replace (r / 255.0) with (r / 255) by lra.
  replace (g / 255.0) with (g / 255) by lra.
  replace (b / 255.0) with (b / 255) by lra.
  pose proof (rgb_to_lab_spec (r / 255, g / 255, b / 255)) as Hlab.
  destruct (rgb_to_lab (r / 255, g / 255, b / 255)) as [[l a] b_val].
  exists (tone_of_ita (typology_angle (l, a, b_val))),
    (undertone_of_lab (l, a, b_val)), (Py.int r, Py.int g, Py.int b),
    l, a, b_val.
  split; [reflexivity |]. split; [exact Hlab |].
  rewrite typology_angle_spec.
  split; [| split; [apply ita_finite |]].
  - intros t. split.
    + intros Ht. exact (tone_rule_functional _ _ _ Ht (tone_of_ita_rule _)).
    + intros ->. apply tone_of_ita_rule.
  - intros u. split.
    + intros Hu. exact (undertone_rule_functional _ _ _ _ Hu (undertone_of_lab_rule _ _ _)).
    + intros ->. apply undertone_of_lab_rule.
Qed.

Section MaskedPixels.
Variable image : Image.
Variable mask : Mask.

Lemma elem_of_boolean_index (p : Z * Z * Z) :
  p ∈ boolean_index image mask <->
  exists r c : nat,
    (r < height image)%nat /\ (c < width image)%nat /\
    mask r c = 255%Z /\ p = pixel image r c.
Proof.
  unfold boolean_index. rewrite list_elem_of_bind. split.
  - intros (r & Hp & Hr). apply list_elem_of_bind in Hp as (c & Hp & Hc).
    apply elem_of_seq in Hr, Hc. case_bool_decide as Hm.
    + apply list_elem_of_singleton in Hp. exists r, c. repeat split; [lia | lia | done | done].
    + by apply elem_of_nil in Hp.
  - intros (r & c & Hr & Hc & Hm & ->). exists r. split.
    + apply list_elem_of_bind. exists c. split.
      * rewrite bool_decide_eq_true_2 by exact Hm. apply list_elem_of_here.
      * apply elem_of_seq. lia.
    + apply elem_of_seq. lia.
Qed.

(** No pixel is selected exactly when the mask has no 255 inside the
    image. *)
Lemma boolean_index_nil :
  boolean_index image mask = [] <-> Spec.mask_is_empty image mask.
Proof.
  unfold Spec.mask_is_empty. split.
  - intros Hnil r c Hr Hc Hm.
    assert (Hin : pixel image r c ∈ boolean_index image mask)
      by (apply elem_of_boolean_index; eauto 10).
    rewrite Hnil in Hin. by apply elem_of_nil in Hin.
  - intros Hempty. destruct (boolean_index image mask) as [| p rest] eqn:Hpx;
      [reflexivity |].
    assert (Hin : p ∈ boolean_index image mask)
      by (rewrite Hpx; apply list_elem_of_here).
    apply elem_of_boolean_index in Hin as (r & c & Hr & Hc & Hm & _).
    by destruct (Hempty r c Hr Hc).
Qed.
End MaskedPixels.

Lemma cheek_points_lookup (points : list Point) :
  (forall i, i ∈ Spec.cheek_indices -> (i < length points)%nat) ->
  exists cheek_points,
    Forall2 (fun i p => points !! i = Some p) Spec.cheek_indices cheek_points /\
    mapM (Py.getitem points) [93; 227; 137; 177]%nat = Ok cheek_points.
Proof.
  intros Hidx.
  destruct (getitem_in_range points 93) as (p93 & H93 & G93);
    [apply Hidx; unfold Spec.cheek_indices; set_solver |].
  destruct (getitem_in_range points 227) as (p227 & H227 & G227);
    [apply Hidx; unfold Spec.cheek_indices; set_solver |].
  destruct (getitem_in_range points 137) as (p137 & H137 & G137);
    [apply Hidx; unfold Spec.cheek_indices; set_solver |].
  destruct (getitem_in_range points 177) as (p177 & H177 & G177);
    [apply Hidx; unfold Spec.cheek_indices; set_solver |].
  exists [p93; p227; p137; p177]. split.
  - unfold Spec.cheek_indices. by repeat constructor.
  - cbn [mapM]. by rewrite G93, G227, G137, G177.
Qed.

(** Once the four landmarks are read the analyzer has two outcomes, chosen
    by whether any pixel lies under the mask. *)
Lemma analyze_skin_tone_unfold
  (fillConvexPoly : Mask -> list (Z * Z) -> Z -> Mask)
  (image : Image) (points cheek_points : list Point) :
  mapM (Py.getitem points) [93; 227; 137; 177]%nat = Ok cheek_points ->
  analyze_skin_tone fillConvexPoly image points =
  let pixels := boolean_index image (cheek_mask fillConvexPoly cheek_points) in
  match pixels with
  | [] => Raise insufficient_sample
  | _ => Ok (skin_tone_of_average (mean_axis0 pixels))
  end.
Proof.
  intros Hget. unfold analyze_skin_tone. rewrite Hget. cbn [mbind result_bind].
  cbv zeta.
  destruct (boolean_index image (cheek_mask fillConvexPoly cheek_points))
    as [| p rest].
  - by rewrite bool_decide_eq_true_2.
  - by rewrite bool_decide_eq_false_2 by (simpl; lia).
Qed.

(** C3.  On a landmark list that has the four cheek-sampling indices,
    [analyze_skin_tone] raises the insufficient-sample error exactly when
    the mask filled from those four landmarks has no pixel inside the
    image, and returns a result in every other case. *)
Theorem analyze_skin_tone_insufficient_sample
  (fillConvexPoly : Mask -> list (Z * Z) -> Z -> Mask)
  (image : Image) (points : list Point) :
  (forall i, i ∈ Spec.cheek_indices -> (i < length points)%nat) ->
  exists cheek_points,
    Forall2 (fun i p => points !! i = Some p) Spec.cheek_indices cheek_points /\
    let mask := cheek_mask fillConvexPoly cheek_points in
    (analyze_skin_tone fillConvexPoly image points = Raise insufficient_sample
     <-> Spec.mask_is_empty image mask) /\
    (~ Spec.mask_is_empty image mask ->
     exists tone undertone sample_rgb,
       analyze_skin_tone fillConvexPoly image points =
       Ok (tone, undertone, sample_rgb)).
Proof.
  intros Hidx.
  destruct (cheek_points_lookup points Hidx) as (cheek_points & Hlook & Hget).
  exists cheek_points. split; [exact Hlook |]. cbv zeta.
  rewrite (analyze_skin_tone_unfold _ _ _ _ Hget). cbv zeta.
  rewrite <- boolean_index_nil.
  destruct (boolean_index image (cheek_mask fillConvexPoly cheek_points))
    as [| p rest] eqn:Hpx.
  - by split.
  - split; [by split |].
    intros _. destruct (skin_tone_of_average _) as [[tone undertone] sample].
    by exists tone, undertone, sample.
Qed.

Lemma analyze_skin_tone_insufficient_sample_witness :
  exists cheek_points,
    Forall2 (fun i p => Spec.sample_landmarks !! i = Some p)
      Spec.cheek_indices cheek_points /\
    let mask := cheek_mask Spec.fill_nothing cheek_points in
    (analyze_skin_tone Spec.fill_nothing Spec.sample_image Spec.sample_landmarks
       = Raise insufficient_sample
     <-> Spec.mask_is_empty Spec.sample_image mask) /\
    (~ Spec.mask_is_empty Spec.sample_image mask ->
     exists tone undertone sample_rgb,
       analyze_skin_tone Spec.fill_nothing Spec.sample_image
         Spec.sample_landmarks = Ok (tone, undertone, sample_rgb)).
Proof.
  apply (analyze_skin_tone_insufficient_sample
           Spec.fill_nothing Spec.sample_image Spec.sample_landmarks).
  intros i Hi. rewrite sample_landmarks_length.
  unfold Spec.cheek_indices in Hi.
  repeat (apply elem_of_cons in Hi as [-> | Hi]; [lia |]).
  by apply elem_of_nil in Hi.
Defined.

(** Both outcomes occur: an untouched mask raises, a mask painted all
    over returns. *)
Lemma analyze_skin_tone_both_outcomes :
  analyze_skin_tone Spec.fill_nothing Spec.sample_image Spec.sample_landmarks
    = Raise insufficient_sample /\
  Py.returns
    (analyze_skin_tone Spec.fill_everything Spec.sample_image
       Spec.sample_landmarks).
Proof.
  assert (Hidx : forall i, i ∈ Spec.cheek_indices ->
                           (i < length Spec.sample_landmarks)%nat).
  { intros i Hi. rewrite sample_landmarks_length.
    unfold Spec.cheek_indices in Hi.
    repeat (apply elem_of_cons in Hi as [-> | Hi]; [lia |]).
    by apply elem_of_nil in Hi. }
  destruct (cheek_points_lookup _ Hidx) as (cheek_points & _ & Hget).
  rewrite !(analyze_skin_tone_unfold _ _ _ _ Hget). cbv zeta. split.
  - assert (Hnil : boolean_index Spec.sample_image
                     (cheek_mask Spec.fill_nothing cheek_points) = []).
    { apply boolean_index_nil. intros r c _ _.
      unfold cheek_mask, Spec.fill_nothing. lia. }
    by rewrite Hnil.
  - destruct (boolean_index Spec.sample_image
                (cheek_mask Spec.fill_everything cheek_points))
      as [| p rest] eqn:Hpx; [| by eexists].
    apply boolean_index_nil in Hpx.
    by destruct (Hpx 0%nat 0%nat); simpl; try lia.
Qed.

Lemma Py_div_zero (x y : R) : y = 0 -> Py.div x y = Raise Py.ZeroDivisionError.
Proof. intros Hy. unfold Py.div. by rewrite bool_decide_eq_true_2. Qed.

(** Outside the data model the classifier can fail: a jaw width that
    cancels the epsilon makes the second quotient a division by zero.
    The non-negativity of section 3 is what rules this out. *)
Lemma classify_face_zero_division :
  classify_face
    {| forehead_width := 100; cheekbone_width := 100; jaw_width := - 1e-6;
       face_length := 100; jaw_angle := 1 |} = Raise Py.ZeroDivisionError.
Proof.
  unfold classify_face; cbn [forehead_width cheekbone_width jaw_width
    face_length jaw_angle].
  rewrite (Py_div_nonzero 100 ((100 + 100 + - 1e-6) / 3.0 + 1e-6)) by lra.
  cbn [mbind result_bind].
  by rewrite (Py_div_zero 100 (- 1e-6 + 1e-6)) by lra.
Qed.

(* ===================================================================== *)
(** ** Beyond the specification: measurement and classification          *)
(* ===================================================================== *)

(** The dimensions measured on a landmark list satisfy the data model of
    section 3. *)
Lemma calculate_dimensions_measured (points : list Point) :
  (forall i, i ∈ Spec.dimension_indices -> (i < length points)%nat) ->
  exists d, calculate_dimensions points = Ok d /\ Spec.FaceDimensions_ok d.
Proof.
  intros Hidx. unfold calculate_dimensions.
  repeat match goal with
    | |- context [Py.getitem points ?i] =>
        let H := fresh "H" in
        destruct (getitem_in_range points i) as (? & _ & H);
        [ apply Hidx; unfold Spec.dimension_indices; set_solver
        | rewrite H; clear H; cbn [mbind result_bind] ]
    end.
  eexists. split; [reflexivity |].
  unfold Spec.FaceDimensions_ok.
  cbn [forehead_width cheekbone_width jaw_width face_length jaw_angle].
  repeat split; try apply distance_nonneg; apply acos_bound.
Qed.

Lemma dimension_indices_bound (points : list Point) :
  (454 < length points)%nat ->
  forall i, i ∈ Spec.dimension_indices -> (i < length points)%nat.
Proof.
  intros Hlen i Hi. unfold Spec.dimension_indices in Hi.
  repeat (apply elem_of_cons in Hi as [-> | Hi]; [lia |]).
  by apply elem_of_nil in Hi.
Qed.

(** X1.  [calculate_dimensions] raises [IndexError] exactly on the
    landmark lists of at most 454 points, and returns on every longer
    one: index 454 is the largest it reads. *)
Theorem calculate_dimensions_index_error (points : list Point) :
  (calculate_dimensions points = Raise Py.IndexError <->
   (length points <= 454)%nat) /\
  (Py.returns (calculate_dimensions points) <-> (454 < length points)%nat).
Proof.
  destruct (decide (454 < length points)%nat) as [Hlong | Hshort].
  - destruct (calculate_dimensions_measured points
                (dimension_indices_bound points Hlong)) as (d & Hrun & _).
    rewrite Hrun. split; split; try done; try lia. intros _. by exists d.
  - assert (Hraise : calculate_dimensions points = Raise Py.IndexError).
    { unfold calculate_dimensions, Py.getitem.
      destruct (points !! 108%nat); [| reflexivity]. cbn [mbind result_bind].
      destruct (points !! 338%nat); [| reflexivity]. cbn [mbind result_bind].
      destruct (points !! 234%nat); [| reflexivity]. cbn [mbind result_bind].
      destruct (points !! 454%nat) eqn:H454; [| reflexivity].
      apply lookup_lt_Some in H454. lia. }
    rewrite Hraise. split; split; try done; try lia.
    intros [d Hd]. discriminate.
Qed.

Lemma sub_translate (offset : R * R) (a b : Point) :
  Np.sub (translate offset a) (translate offset b) = Np.sub a b.
Proof. unfold Np.sub, translate. cbn [fst snd]. f_equal; ring. Qed.

Lemma getitem_fmap {A B} (f : A -> B) (l : list A) (i : nat) :
  Py.getitem (f <$> l) i =
  match Py.getitem l i with Ok a => Ok (f a) | Raise e => Raise e end.
Proof.
  unfold Py.getitem. rewrite list_lookup_fmap. by destruct (l !! i).
Qed.

(** X2.  Moving every landmark by the same offset changes none of the
    five measurements, nor whether the measurer raises. *)
Theorem calculate_dimensions_translation_invariant
  (offset : R * R) (points : list Point) :
  calculate_dimensions (translate offset <$> points) = calculate_dimensions points.
Proof.
  unfold calculate_dimensions. rewrite !getitem_fmap.
  repeat match goal with
    | |- context [Py.getitem points ?i] =>
        destruct (Py.getitem points i); cbn [mbind result_bind];
        [| reflexivity]
    end.
  unfold distance. by rewrite !sub_translate.
Qed.

Ltac list_member :=
  repeat first [ apply list_elem_of_here | apply list_elem_of_further ].

Lemma decision_tree_known (lr ctj ftj angle : R) (shape : string) :
  Spec.decision_tree lr ctj ftj angle shape -> shape ∈ Spec.known_shapes.
Proof.
  unfold Spec.known_shapes. destruct 1; list_member.
Qed.

Lemma classify_face_known (d : FaceDimensions) :
  Spec.FaceDimensions_ok d ->
  exists shape, classify_face d = Ok shape /\ shape ∈ Spec.known_shapes.
Proof.
  intros Hd. destruct (classify_face_in_tree d Hd) as (shape & Hrun & Htree).
  exists shape. split; [exact Hrun |]. by eapply decision_tree_known.
Qed.

(** X3.  On the dimensions measured from any landmark list that has the
    measurer's indices, the classifier returns one of the six shapes: the
    measured widths are non-negative, so no quotient divides by zero. *)
Theorem measured_dimensions_classify (points : list Point) :
  (forall i, i ∈ Spec.dimension_indices -> (i < length points)%nat) ->
  exists d shape,
    calculate_dimensions points = Ok d /\
    classify_face d = Ok shape /\
    shape ∈ Spec.known_shapes.
Proof.
  intros Hidx.
  destruct (calculate_dimensions_measured points Hidx) as (d & Hrun & Hd).
  destruct (classify_face_known d Hd) as (shape & Hshape & Hknown).
  by exists d, shape.
Qed.

Lemma measured_dimensions_classify_witness :
  exists d shape,
    calculate_dimensions Spec.sample_landmarks = Ok d /\
    classify_face d = Ok shape /\
    shape ∈ Spec.known_shapes.
Proof.
  apply (measured_dimensions_classify Spec.sample_landmarks).
  apply dimension_indices_bound. rewrite sample_landmarks_length. lia.
Defined.

(** X4.  On arbitrary dimensions the classifier either raises
    [ZeroDivisionError] or returns one of the six shapes; it raises
    exactly when the mean width or the jaw width cancels the epsilon. *)
Theorem classify_face_outcomes (d : FaceDimensions) :
  (classify_face d = Raise Py.ZeroDivisionError <->
   Spec.width_avg d + 1e-6 = 0 \/ jaw_width d + 1e-6 = 0) /\
  (classify_face d = Raise Py.ZeroDivisionError \/
   exists shape, classify_face d = Ok shape /\ shape ∈ Spec.known_shapes).
Proof.
  unfold classify_face, Spec.width_avg, Spec.known_shapes.
  replace ((forehead_width d + cheekbone_width d + jaw_width d) / 3.0)
    with ((forehead_width d + cheekbone_width d + jaw_width d) / 3) by lra.
  set (wa := (forehead_width d + cheekbone_width d + jaw_width d) / 3).
  unfold Py.div.
  destruct (bool_decide (wa + 1e-6 = 0)) eqn:Hwa;
    [apply bool_decide_eq_true_1 in Hwa | apply bool_decide_eq_false_1 in Hwa];
    cbn [mbind result_bind].
  { split; [split; [tauto | done] | by left]. }
  destruct (bool_decide (jaw_width d + 1e-6 = 0)) eqn:Hjaw;
    [apply bool_decide_eq_true_1 in Hjaw | apply bool_decide_eq_false_1 in Hjaw];
    cbn [mbind result_bind].
  { split; [split; [tauto | done] | by left]. }
  rewrite <- ?bool_decide_and.
  repeat case_bool_decide;
    (split; [split; [discriminate | tauto]
            | right; eexists; split; [reflexivity | list_member]]).
Qed.

(* ===================================================================== *)
(** ** Beyond the specification: skin tone                               *)
(* ===================================================================== *)

Lemma cheek_indices_bound (points : list Point) :
  (227 < length points)%nat ->
  forall i, i ∈ Spec.cheek_indices -> (i < length points)%nat.
Proof.
  intros Hlen i Hi. unfold Spec.cheek_indices in Hi.
  repeat (apply elem_of_cons in Hi as [-> | Hi]; [lia |]).
  by apply elem_of_nil in Hi.
Qed.

(** X5.  Whatever the image and the fill, [analyze_skin_tone] raises
    [IndexError] exactly on the landmark lists of at most 227 points:
    index 227 is the largest of the cheek quad. *)
Theorem analyze_skin_tone_index_error
  (fillConvexPoly : Mask -> list (Z * Z) -> Z -> Mask)
  (image : Image) (points : list Point) :
  analyze_skin_tone fillConvexPoly image points = Raise Py.IndexError <->
  (length points <= 227)%nat.
Proof.
  destruct (decide (227 < length points)%nat) as [Hlong | Hshort].
  - destruct (cheek_points_lookup points (cheek_indices_bound points Hlong))
      as (cheek_points & _ & Hget).
    rewrite (analyze_skin_tone_unfold _ _ _ _ Hget). cbv zeta.
    destruct (boolean_index _ _); split; try discriminate; lia.
  - split; [lia | intros _].
    unfold analyze_skin_tone. cbn [mapM]. unfold Py.getitem.
    destruct (points !! 93%nat); [| reflexivity]. cbn [mbind result_bind].
    destruct (points !! 227%nat) eqn:H227; [| reflexivity].
    apply lookup_lt_Some in H227. lia.
Qed.

(** The typology angle is a number of degrees between -90 and 90, or a
    NaN at the one point where the quotient is 0/0. *)
Lemma degrees_of_atan_bounds (x : R) : -90 < Np.degrees (atan x) < 90.
Proof.
  pose proof (atan_bound x) as [Hlo Hhi]. pose proof PI_RGT_0 as Hpi.
  unfold Np.degrees.
  assert (Hk : 0 < 180 / PI) by (apply Rdiv_lt_0_compat; lra).
  assert (H90 : PI / 2 * (180 / PI) = 90) by (field; lra).
  split; nra.
Qed.

(** X6.  The typology angle of every Lab triple is finite and within
    [-90, 90] degrees, except at L = 50 and b = -1e-6, where it is a
    NaN; it is never infinite. *)
Theorem typology_angle_range (l a b : R) :
  match typology_angle (l, a, b) with
  | Np.Finite ita => -90 <= ita <= 90
  | Np.NaN => l = 50 /\ b = - 1e-6
  | Np.PosInf | Np.NegInf => False
  end.
Proof.
  unfold typology_angle, Np.divide. pose proof PI_RGT_0 as Hpi.
  assert (H90 : Np.degrees (PI / 2) = 90) by (unfold Np.degrees; field; lra).
  assert (Hm90 : Np.degrees (- (PI / 2)) = -90)
    by (unfold Np.degrees; field; lra).
  repeat case_bool_decide; cbn [Np.arctan Np.degrees64].
  - rewrite H90. lra.
  - rewrite Hm90. lra.
  - split; lra.
  - pose proof (degrees_of_atan_bounds ((l - 50.0) / (b + 1e-6))). lra.
Qed.

(** Bounds on the mean of a list of bytes. *)
Lemma byte_total_bounds (values : list Z) :
  Forall (fun v => 0 <= v <= 255)%Z values ->
  (0 <= foldr Z.add 0 values <= 255 * Z.of_nat (length values))%Z.
Proof.
  induction 1 as [| v values Hv _ IH]; simpl; lia.
Qed.

Lemma byte_mean_bounds (values : list Z) :
  values <> [] ->
  Forall (fun v => 0 <= v <= 255)%Z values ->
  0 <= IZR (foldr Z.add 0%Z values) / INR (length values) <= 255.
Proof.
  intros Hne Hall. pose proof (byte_total_bounds values Hall) as [Hlo Hhi].
  assert (Hn : 0 < INR (length values)).
  { apply lt_0_INR. destruct values; [done | simpl; lia]. }
  apply IZR_le in Hlo, Hhi. rewrite mult_IZR, <- INR_IZR_INZ in Hhi.
  split.
  - apply Rmult_le_pos; [exact Hlo | left; by apply Rinv_0_lt_compat].
  - apply Rdiv_le_iff; [exact Hn | exact Hhi].
Qed.

Lemma int_of_byte_range (x : R) : 0 <= x <= 255 -> (0 <= Py.int x <= 255)%Z.
Proof.
  intros [Hlo Hhi]. unfold Py.int. rewrite bool_decide_eq_true_2 by exact Hlo.
  pose proof (base_Int_part x) as [Hle Hgt].
  split.
  - apply le_IZR. assert (-1 < IZR (Int_part x)) by lra.
    apply lt_IZR in H. apply IZR_le. lia.
  - apply le_IZR. lra.
Qed.

Lemma tone_of_ita_known (ita : Np.float64) :
  tone_of_ita ita ∈ ["very_light"; "light"; "medium"; "tan"; "deep"].
Proof.
  unfold tone_of_ita. repeat destruct (Np.ge ita _); list_member.
Qed.

Lemma undertone_of_lab_known (lab : Lab) :
  undertone_of_lab lab ∈ ["cool"; "warm"; "neutral"].
Proof.
  destruct lab as [[l a] b]. unfold undertone_of_lab.
  destruct (_ && _); [list_member |]. case_bool_decide; list_member.
Qed.

Lemma skin_tone_of_average_well_formed (r g b : R) :
  0 <= r <= 255 -> 0 <= g <= 255 -> 0 <= b <= 255 ->
  let '(tone, undertone, (red, green, blue)) := skin_tone_of_average (r, g, b) in
  tone ∈ ["very_light"; "light"; "medium"; "tan"; "deep"] /\
  undertone ∈ ["cool"; "warm"; "neutral"] /\
  (0 <= red <= 255 /\ 0 <= green <= 255 /\ 0 <= blue <= 255)%Z.
Proof.
  intros Hr Hg Hb. unfold skin_tone_of_average.
  split; [apply tone_of_ita_known |]. split; [apply undertone_of_lab_known |].
  auto using int_of_byte_range.
Qed.

Lemma mean_axis0_range (pixels : list (Z * Z * Z)) :
  pixels <> [] ->
  Forall (fun p : Z * Z * Z =>
            (0 <= p.1.1 <= 255 /\ 0 <= p.1.2 <= 255 /\ 0 <= p.2 <= 255)%Z)
    pixels ->
  let '(r, g, b) := mean_axis0 pixels in
  0 <= r <= 255 /\ 0 <= g <= 255 /\ 0 <= b <= 255.
Proof.
  intros Hne Hall. unfold mean_axis0. cbv zeta.
  assert (Hlen : forall f : Z * Z * Z -> Z, length pixels = length (f <$> pixels))
    by (intros f; by rewrite length_fmap).
  assert (Hnes : forall f : Z * Z * Z -> Z, f <$> pixels <> [])
    by (intros f; by destruct pixels).
  split; [| split].
  - rewrite (Hlen (fun p => p.1.1)). apply byte_mean_bounds; [apply Hnes |].
    apply Forall_fmap. eapply Forall_impl; [exact Hall |]. simpl. tauto.
  - rewrite (Hlen (fun p => p.1.2)). apply byte_mean_bounds; [apply Hnes |].
    apply Forall_fmap. eapply Forall_impl; [exact Hall |]. simpl. tauto.
  - rewrite (Hlen (fun p => p.2)). apply byte_mean_bounds; [apply Hnes |].
    apply Forall_fmap. eapply Forall_impl; [exact Hall |]. simpl. tauto.
Qed.

Lemma boolean_index_uint8 (image : Image) (mask : Mask) :
  uint8_image image ->
  Forall (fun p : Z * Z * Z =>
            (0 <= p.1.1 <= 255 /\ 0 <= p.1.2 <= 255 /\ 0 <= p.2 <= 255)%Z)
    (boolean_index image mask).
Proof.
  intros Himg. apply Forall_forall. intros p Hp.
  apply elem_of_boolean_index in Hp as (r & c & _ & _ & _ & ->).
  specialize (Himg r c). by destruct (pixel image r c) as [[red green] blue].
Qed.

(** The result on a [uint8] image, when there is one, is a well-formed
    SkinToneResult. *)
Lemma analyze_skin_tone_well_formed
  (fillConvexPoly : Mask -> list (Z * Z) -> Z -> Mask)
  (image : Image) (points : list Point)
  (tone undertone : string) (sample : Z * Z * Z) :
  uint8_image image ->
  analyze_skin_tone fillConvexPoly image points = Ok (tone, undertone, sample) ->
  tone ∈ ["very_light"; "light"; "medium"; "tan"; "deep"] /\
  undertone ∈ ["cool"; "warm"; "neutral"] /\
  (0 <= sample.1.1 <= 255 /\ 0 <= sample.1.2 <= 255 /\ 0 <= sample.2 <= 255)%Z.
Proof.
  intros Himg Hrun. unfold analyze_skin_tone in Hrun.
  destruct (mapM _ _) as [cheek_points |]; [| discriminate].
  cbn [mbind result_bind] in Hrun. cbv zeta in Hrun.
  case_bool_decide as Hsize; [discriminate |].
  set (pixels := boolean_index image (cheek_mask fillConvexPoly cheek_points)) in *.
  assert (Hne : pixels <> []) by (intros Hnil; rewrite Hnil in Hsize; done).
  pose proof (mean_axis0_range pixels Hne (boolean_index_uint8 _ _ Himg)) as Hmean.
  destruct (mean_axis0 pixels) as [[r g] b]. destruct Hmean as (Hr & Hg & Hb).
  pose proof (skin_tone_of_average_well_formed r g b Hr Hg Hb) as Hwf.
  assert (Heq : skin_tone_of_average (r, g, b) = (tone, undertone, sample))
    by congruence.
  rewrite Heq in Hwf. by destruct sample as [[red green] blue].
Qed.

(** X7.  On an image of bytes, whatever [analyze_skin_tone] returns is a
    well-formed result: the tone is one of the five buckets, the undertone
    one of the three, and each channel of the sample colour is a byte. *)
Theorem analyze_skin_tone_result_well_formed
  (fillConvexPoly : Mask -> list (Z * Z) -> Z -> Mask)
  (image : Image) (points : list Point) :
  uint8_image image ->
  match analyze_skin_tone fillConvexPoly image points with
  | Ok (tone, undertone, (red, green, blue)) =>
      tone ∈ ["very_light"; "light"; "medium"; "tan"; "deep"] /\
      undertone ∈ ["cool"; "warm"; "neutral"] /\
      (0 <= red <= 255 /\ 0 <= green <= 255 /\ 0 <= blue <= 255)%Z
  | Raise _ => True
  end.
Proof.
  intros Himg.
  destruct (analyze_skin_tone fillConvexPoly image points)
    as [[[tone undertone] [[red green] blue]] |] eqn:Hrun; [| done].
  exact (analyze_skin_tone_well_formed _ _ _ _ _ _ Himg Hrun).
Qed.

Lemma sample_image_uint8 : uint8_image Spec.sample_image.
Proof. intros r c. simpl. lia. Qed.

Lemma analyze_skin_tone_result_well_formed_witness :
  uint8_image Spec.sample_image /\
  match analyze_skin_tone Spec.fill_everything Spec.sample_image
          Spec.sample_landmarks with
  | Ok (tone, undertone, (red, green, blue)) =>
      tone ∈ ["very_light"; "light"; "medium"; "tan"; "deep"] /\
      undertone ∈ ["cool"; "warm"; "neutral"] /\
      (0 <= red <= 255 /\ 0 <= green <= 255 /\ 0 <= blue <= 255)%Z
  | Raise _ => True
  end.
Proof.
  split; [exact sample_image_uint8 |].
  exact (analyze_skin_tone_result_well_formed Spec.fill_everything
           Spec.sample_image Spec.sample_landmarks sample_image_uint8).
Defined.

Lemma Rpower_one_base (y : R) : Rpower 1 y = 1.
Proof. unfold Rpower. by rewrite ln_1, Rmult_0_r, exp_0. Qed.

Lemma Rpower_unit (x y : R) : 0 < x <= 1 -> 0 <= y -> 0 < Rpower x y <= 1.
Proof.
  intros Hx Hy. split; [apply exp_pos |].
  rewrite <- (Rpower_one_base y). by apply Rle_Rpower_l.
Qed.

Lemma Rdiv_nonneg (a c : R) : 0 <= a -> 0 < c -> 0 <= a / c.
Proof.
  intros Ha Hc. apply Rmult_le_pos; [exact Ha |].
  left. by apply Rinv_0_lt_compat.
Qed.

Lemma gamma_correct_unit (channel : R) :
  0 <= channel <= 1 -> 0 <= gamma_correct channel <= 1.
Proof.
  intros Hc. unfold gamma_correct. case_bool_decide as Hlow.
  - split; [apply Rdiv_nonneg; lra |]. apply Rdiv_le_iff; lra.
  - assert (Hbase : 0 < (channel + 0.055) / 1.055 <= 1).
    { split; [apply Rdiv_lt_0_compat; lra | apply Rdiv_le_iff; lra]. }
    pose proof (Rpower_unit _ 2.4 Hbase ltac:(lra)). lra.
Qed.

(** The cube root of a number above the threshold is above 16/116. *)
Lemma cube_root_floor (t : R) : 0.008856 < t -> 16 / 116 <= Rpower t (1 / 3).
Proof.
  intros Ht. set (q := 16 / 116).
  assert (Hq : 0 < q) by (unfold q; lra).
  assert (Hcube : Rpower (Rpower q 3) (1 / 3) = q).
  { rewrite Rpower_mult. replace (3 * (1 / 3)) with 1 by lra.
    by apply Rpower_1. }
  rewrite <- Hcube at 1.
  apply Rle_Rpower_l; [lra |]. split; [apply exp_pos |].
  replace 3 with (INR 3) by (simpl; lra). rewrite Rpower_pow by exact Hq.
  unfold q. simpl. lra.
Qed.

Lemma lab_f_bounds (t : R) : 0 <= t <= 1 -> 16 / 116 <= lab_f t <= 1.
Proof.
  intros Ht. unfold lab_f. case_bool_decide as Hhigh.
  - split; [apply cube_root_floor; lra |].
    apply (Rpower_unit t (1 / 3)); lra.
  - lra.
Qed.

(** X8.  For every RGB triple in the unit cube the lightness L* computed
    by [rgb_to_lab] lies between 0 and 100. *)
Theorem rgb_to_lab_lightness_range (r g b : R) :
  0 <= r <= 1 -> 0 <= g <= 1 -> 0 <= b <= 1 ->
  0 <= (rgb_to_lab (r, g, b)).1.1 <= 100.
Proof.
  intros Hr Hg Hb. unfold rgb_to_lab. cbv zeta. cbn [fst].
  pose proof (gamma_correct_unit r Hr). pose proof (gamma_correct_unit g Hg).
  pose proof (gamma_correct_unit b Hb).
  set (y := 0.2126 * gamma_correct r + 0.7152 * gamma_correct g +
            0.0722 * gamma_correct b).
  assert (Hy : 0 <= y <= 1) by (unfold y; lra).
  pose proof (lab_f_bounds y Hy). lra.
Qed.

Lemma rgb_to_lab_lightness_range_witness :
  0 <= (rgb_to_lab (0.5, 0.25, 1)).1.1 <= 100.
Proof. apply rgb_to_lab_lightness_range; lra. Defined.

(* ===================================================================== *)
(** ** Beyond the specification: overlay geometry                        *)
(* ===================================================================== *)

Lemma fold_min_elem (xs : list R) (x0 : R) : fold_left Py.min xs x0 ∈ x0 :: xs.
Proof.
  revert x0. induction xs as [| x xs IH]; intros x0; simpl.
  - apply list_elem_of_here.
  - specialize (IH (Py.min x0 x)). unfold Py.min in *.
    case_bool_decide; apply elem_of_cons in IH as [-> | IH];
      rewrite ?elem_of_cons; auto.
Qed.

Lemma fold_max_elem (xs : list R) (x0 : R) : fold_left Py.max xs x0 ∈ x0 :: xs.
Proof.
  revert x0. induction xs as [| x xs IH]; intros x0; simpl.
  - apply list_elem_of_here.
  - specialize (IH (Py.max x0 x)). unfold Py.max in *.
    case_bool_decide; apply elem_of_cons in IH as [-> | IH];
      rewrite ?elem_of_cons; auto.
Qed.

Lemma min_max_of_elem (xs : list R) (lo hi : R) :
  Py.min_of xs = Ok lo -> Py.max_of xs = Ok hi -> lo ∈ xs /\ hi ∈ xs.
Proof.
  destruct xs as [| x0 rest]; [discriminate |]. simpl.
  intros [= <-] [= <-]. split; [apply fold_min_elem | apply fold_max_elem].
Qed.

(** X9.  [generate_overlay] raises, with the unpacking [ValueError], on
    the empty landmark list and on no other; the box it returns otherwise
    contains every landmark and is the smallest such box: each of its four
    sides is a coordinate of some landmark. *)
Theorem generate_overlay_box_tight (shape : string) (points : list Point) :
  match generate_overlay shape points with
  | Ok overlay =>
      let '(min_x, min_y, max_x, max_y) := bounding_box overlay in
      points <> [] /\
      (forall p, p ∈ points -> min_x <= p.1 <= max_x /\ min_y <= p.2 <= max_y) /\
      min_x ∈ points.*1 /\ max_x ∈ points.*1 /\
      min_y ∈ points.*2 /\ max_y ∈ points.*2
  | Raise e =>
      points = [] /\
      e = Py.ValueError "not enough values to unpack (expected 2, got 0)"
  end.
Proof.
  destruct points as [| p0 rest]; [by split |].
  assert (Hne : p0 :: rest <> []) by done.
  destruct (generate_overlay_returns shape (p0 :: rest) Hne)
    as (min_x & min_y & max_x & max_y & Hrun & Hbox).
  rewrite Hrun. cbn [bounding_box].
  split; [done |]. split; [exact Hbox |].
  unfold generate_overlay in Hrun. cbn [unzip_points mbind result_bind] in Hrun.
  destruct (Py.min_of (p0 :: rest).*1) as [lo_x |] eqn:Hlox; [| discriminate].
  destruct (Py.max_of (p0 :: rest).*1) as [hi_x |] eqn:Hhix; [| discriminate].
  destruct (Py.min_of (p0 :: rest).*2) as [lo_y |] eqn:Hloy; [| discriminate].
  destruct (Py.max_of (p0 :: rest).*2) as [hi_y |] eqn:Hhiy; [| discriminate].
  cbn [mbind result_bind] in Hrun. injection Hrun as -> -> -> -> _.
  destruct (min_max_of_elem _ _ _ Hlox Hhix).
  destruct (min_max_of_elem _ _ _ Hloy Hhiy). done.
Qed.

Section ZonesInside.
Variables min_x min_y max_x max_y : R.
Hypothesis x_ordered : min_x <= max_x.
Hypothesis y_ordered : min_y <= max_y.

Lemma box_fraction (lo hi fraction : R) :
  lo <= hi -> 0 <= fraction <= 1 ->
  0 <= (hi - lo) * fraction <= hi - lo.
Proof. intros. nra. Qed.

Lemma make_zone_inside (zone_type : string) (factor_y height inset : R) (p : Point) :
  0 <= inset -> inset + 0.05 <= 1 ->
  0 <= factor_y -> 0 <= height -> factor_y + height <= 1 ->
  p ∈ make_zone min_x min_y max_x max_y zone_type factor_y height inset ->
  inside_box (min_x, min_y, max_x, max_y) p.
Proof using x_ordered y_ordered.
  intros Hi Hi' Hf Hh Hfh Hp. unfold make_zone in Hp. cbv zeta in Hp.
  pose proof (box_fraction min_x max_x inset x_ordered ltac:(lra)).
  pose proof (box_fraction min_x max_x (inset + 0.05) x_ordered ltac:(lra)).
  pose proof (box_fraction min_y max_y factor_y y_ordered ltac:(lra)).
  pose proof (box_fraction min_y max_y (factor_y + height) y_ordered ltac:(lra)).
  unfold inside_box.
  repeat (apply elem_of_cons in Hp as [-> | Hp]; [cbn [fst snd]; lra |]).
  by apply elem_of_nil in Hp.
Qed.

Lemma ellipse_inside (center_y_factor width_factor height_factor : R) (p : Point) :
  0 <= width_factor <= 1 -> 0 <= height_factor ->
  0 <= center_y_factor - height_factor / 2 ->
  center_y_factor + height_factor / 2 <= 1 ->
  p ∈ ellipse min_x min_y max_x max_y center_y_factor width_factor height_factor ->
  inside_box (min_x, min_y, max_x, max_y) p.
Proof using x_ordered y_ordered.
  intros Hw Hh Hlo Hhi Hp. unfold ellipse in Hp. cbv zeta in Hp.
  apply list_elem_of_fmap in Hp as (degree & -> & _).
  pose proof (COS_bound (Np.radians (INR degree))) as [Hc1 Hc2].
  pose proof (SIN_bound (Np.radians (INR degree))) as [Hs1 Hs2].
  set (c := cos _) in *. set (s := sin _) in *.
  pose proof (box_fraction min_x max_x width_factor x_ordered Hw) as Hrx.
  pose proof (box_fraction min_y max_y (center_y_factor - height_factor / 2)
                y_ordered ltac:(lra)) as Hy1.
  pose proof (box_fraction min_y max_y (center_y_factor + height_factor / 2)
                y_ordered ltac:(lra)) as Hy2.
  assert (Hry : 0 <= (max_y - min_y) * height_factor) by nra.
  set (rx := (max_x - min_x) * width_factor) in *.
  set (ry := (max_y - min_y) * height_factor) in *.
  assert (Hcx : - (rx / 2) <= c * rx / 2 <= rx / 2) by nra.
  assert (Hsy : - (ry / 2) <= s * ry / 2 <= ry / 2) by nra.
  unfold inside_box. cbn [fst snd].
  replace (c * (rx / 2)) with (c * rx / 2) by lra.
  replace (s * (ry / 2)) with (s * ry / 2) by lra.
  replace ((max_y - min_y) * (center_y_factor - height_factor / 2))
    with ((max_y - min_y) * center_y_factor - ry / 2) in Hy1 by (unfold ry; lra).
  replace ((max_y - min_y) * (center_y_factor + height_factor / 2))
    with ((max_y - min_y) * center_y_factor + ry / 2) in Hy2 by (unfold ry; lra).
  lra.
Qed.
End ZonesInside.

Lemma zones_for_inside (min_x min_y max_x max_y : R) (shape name : string)
  (zone : list Point) (p : Point) :
  min_x <= max_x -> min_y <= max_y ->
  zones_for min_x min_y max_x max_y shape !! name = Some zone ->
  p ∈ zone ->
  inside_box (min_x, min_y, max_x, max_y) p.
Proof.
  intros Hx Hy Hzone Hp. unfold zones_for in Hzone.
  repeat case_bool_decide;
    (apply lookup_insert_Some in Hzone as [[_ <-] | [_ Hzone]];
     [ eapply (make_zone_inside _ _ _ _ Hx Hy); [.. | exact Hp]; lra |];
     apply lookup_insert_Some in Hzone as [[_ <-] | [_ Hzone]];
     [ eapply (ellipse_inside _ _ _ _ Hx Hy); [.. | exact Hp]; lra |];
     apply lookup_singleton_Some in Hzone as [_ <-];
     eapply (ellipse_inside _ _ _ _ Hx Hy); [.. | exact Hp]; lra).
Qed.

(** X10.  Whatever the shape, every point of every zone that
    [generate_overlay] returns lies inside the bounding box it returns:
    the per-shape constants never push a contour or an ellipse past the
    landmarks' extent. *)
Theorem generate_overlay_zones_inside (shape : string) (points : list Point) :
  match generate_overlay shape points with
  | Ok overlay =>
      forall (name : string) (zone : list Point) (p : Point),
        zones overlay !! name = Some zone -> p ∈ zone ->
        inside_box (bounding_box overlay) p
  | Raise _ => True
  end.
Proof.
  destruct points as [| p0 rest]; [done |].
  assert (Hne : p0 :: rest <> []) by done.
  destruct (generate_overlay_returns shape (p0 :: rest) Hne)
    as (min_x & min_y & max_x & max_y & Hrun & Hbox).
  rewrite Hrun. cbn [bounding_box zones]. intros name zone p.
  destruct (Hbox p0) as [Hx Hy]; [apply list_elem_of_here |].
  apply zones_for_inside; lra.
Qed.

(* ===================================================================== *)
(** ** Beyond the specification: insights                                *)
(* ===================================================================== *)

Lemma inverted_clamp_bounds (x : R) : 0 <= Py.max 0.0 (1.0 - Py.min 1.0 x) <= 1 \/ x < 0.
Proof.
  rewrite Py_max_Rmax, Py_min_Rmin. unfold Rmax, Rmin.
  repeat destruct (Rle_dec _ _); lra.
Qed.

Lemma inverted_clamp_exact (x : R) :
  0 <= x <= 1 -> Py.max 0.0 (1.0 - Py.min 1.0 x) = 1 - x.
Proof.
  intros Hx. rewrite Py_max_Rmax, Py_min_Rmin. unfold Rmax, Rmin.
  repeat destruct (Rle_dec _ _); lra.
Qed.

Lemma guarded_denominator (x : R) : 1e-6 <= Py.max x 1e-6.
Proof. apply max_floor. Qed.

Lemma guarded_div (a x : R) : Py.div a (Py.max x 1e-6) = Ok (a / Py.max x 1e-6).
Proof. apply Py_div_nonzero. pose proof (guarded_denominator x). lra. Qed.

(** What [compute_brow_balance] returns, by cases on the two lookups. *)
Lemma compute_brow_balance_unfold (points : list Point) (height : R) :
  compute_brow_balance points height =
  match points !! 70%nat, points !! 300%nat with
  | Some left_pt, Some right_pt =>
      Ok (Py.max 0.0
            (1.0 - Py.min 1.0
                     (Py.abs (left_pt.2 - right_pt.2) / Py.max height 1e-6 * 3)))
  | _, _ => Ok 0.8
  end.
Proof.
  unfold compute_brow_balance, Py.getitem. cbv zeta.
  destruct (points !! 70%nat) as [left_pt |]; [| reflexivity].
  destruct (points !! 300%nat) as [right_pt |]; [| reflexivity].
  cbn [mbind result_bind]. by rewrite guarded_div.
Qed.

Lemma compute_brow_balance_returns (points : list Point) (height : R) :
  exists brow, compute_brow_balance points height = Ok brow /\ 0 <= brow <= 1.
Proof.
  rewrite compute_brow_balance_unfold.
  destruct (points !! 70%nat) as [left_pt |]; [| exists 0.8; split; [done | lra]].
  destruct (points !! 300%nat) as [right_pt |]; [| exists 0.8; split; [done | lra]].
  eexists. split; [reflexivity |].
  match goal with
  | |- context [Py.min 1.0 ?x] =>
      destruct (inverted_clamp_bounds x) as [Hb | Hneg]; [exact Hb |]
  end.
  exfalso. pose proof (guarded_denominator height) as Hden.
  pose proof (Rabs_pos (left_pt.2 - right_pt.2)) as Habs.
  assert (Hpos : 0 < Py.max height 1e-6) by lra.
  pose proof (Rdiv_nonneg _ _ Habs Hpos).
  unfold Py.abs in Hneg. lra.
Qed.

(** X11.  [compute_brow_balance] never raises and returns a score in
    [0, 1]: 0.8 whenever the landmark list has at most 300 points (one of
    the brow landmarks is missing), and 1 whenever both brow landmarks
    are present at the same height. *)
Theorem compute_brow_balance_score (points : list Point) (height : R) :
  exists brow,
    compute_brow_balance points height = Ok brow /\
    0 <= brow <= 1 /\
    ((length points <= 300)%nat -> brow = 0.8) /\
    (forall left_pt right_pt,
       points !! 70%nat = Some left_pt -> points !! 300%nat = Some right_pt ->
       left_pt.2 = right_pt.2 -> brow = 1).
Proof.
  destruct (compute_brow_balance_returns points height) as (brow & Hrun & Hrange).
  exists brow. split; [exact Hrun |]. split; [exact Hrange |].
  rewrite compute_brow_balance_unfold in Hrun. split.
  - intros Hlen. destruct (points !! 300%nat) eqn:H300.
    { apply lookup_lt_Some in H300. unfold Point in *. lia. }
    destruct (points !! 70%nat); by injection Hrun as <-.
  - intros left_pt right_pt Hl Hr Hlevel. rewrite Hl, Hr in Hrun.
    injection Hrun as <-. rewrite Hlevel.
    unfold Py.abs. replace (right_pt.2 - right_pt.2) with 0 by lra.
    rewrite Rabs_R0. unfold Rdiv at 1. rewrite !Rmult_0_l.
    rewrite inverted_clamp_exact by lra. lra.
Qed.

Lemma radians_window : Np.radians 37.5 = 1.5 * Np.radians 25.
Proof. unfold Np.radians. lra. Qed.

(** X12.  The jaw score has a closed form: it is 1 at 37.5 degrees, the
    middle of the 25 to 50 degree window, falls linearly with the
    distance of the jaw angle from there, and stays at 0.5 outside the
    window. *)
Theorem compute_jaw_definition_closed_form (d : FaceDimensions) :
  compute_jaw_definition d =
  1 - Rmin (Rabs (jaw_angle d - Np.radians 37.5) / Np.radians 25) 0.5.
Proof.
  pose proof radians_25_pos as Hr. unfold compute_jaw_definition. cbv zeta.
  set (x := (jaw_angle d - Np.radians 25) / Np.radians 25).
  assert (Hx : (jaw_angle d - Np.radians 37.5) / Np.radians 25 = x - 0.5).
  { apply Rdiv_eq_iff; [lra |]. rewrite radians_window.
    assert (jaw_angle d - Np.radians 25 = x * Np.radians 25)
      by (unfold x; field; lra). lra. }
  assert (Habs : Rabs (jaw_angle d - Np.radians 37.5) / Np.radians 25
                 = Rabs (x - 0.5)).
  { rewrite <- Hx. unfold Rdiv. rewrite Rabs_mult.
    f_equal. symmetry. apply Rabs_pos_eq. left. by apply Rinv_0_lt_compat. }
  rewrite Habs, Py_max_Rmax, Py_min_Rmin.
  unfold Py.abs, Rmax, Rmin, Rabs.
  repeat first [destruct (Rle_dec _ _) | destruct (Rcase_abs _)]; lra.
Qed.

(** X13.  The two texts of [compute_symmetry] are fixed by the score: the
    description changes at 0.9 and 0.75, the guidance at 0.85 and 0.65, so
    a highly balanced description always comes with the mirroring advice
    and the diagonal advice always with the description of uneven cheek
    widths. *)
Theorem compute_symmetry_texts (points : list Point) (box : R * R * R * R) :
  let s := compute_symmetry points box in
  (score s >= 0.9 <->
   description s = "Highly balanced proportions across both sides of the face.") /\
  (score s < 0.75 <->
   description s = "Cheek widths vary more noticeably; thoughtful contour can even things out.") /\
  (score s >= 0.85 <->
   guidance s = "Mirror highlight and blush placement to emphasize your natural balance.") /\
  (score s < 0.65 <->
   guidance s = "Use diagonal blush placement and tapered contour strokes to visually lift the softer side.") /\
  (description s = "Highly balanced proportions across both sides of the face." ->
   guidance s = "Mirror highlight and blush placement to emphasize your natural balance.") /\
  (guidance s = "Use diagonal blush placement and tapered contour strokes to visually lift the softer side." ->
   description s = "Cheek widths vary more noticeably; thoughtful contour can even things out.").
Proof.
  destruct box as [[[min_x min_y] max_x] max_y].
  unfold compute_symmetry. cbv zeta. cbn [score description guidance].
  set (symmetry_score := Py.max 0.0 _).
  repeat case_bool_decide; repeat split; intros; try done; try lra.
Qed.

(** The message of a ratio is fixed by its delta and the upper
    threshold of its formatter. *)
Lemma formatter_cases (upper : R) (high balanced low : string) (delta : R) :
  0.05 <= upper -> high <> balanced -> high <> low -> balanced <> low ->
  let message :=
    if bool_decide (delta > upper) then high
    else if bool_decide (Py.abs delta < 0.05) then balanced
    else low in
  (message = high <-> delta > upper) /\
  (message = balanced <-> -0.05 < delta < 0.05) /\
  (message = low <-> delta <= -0.05 \/ 0.05 <= delta <= upper).
Proof.
  intros Hupper Hhb Hhl Hbl. cbv zeta. unfold Py.abs, Rabs.
  repeat case_bool_decide; destruct (Rcase_abs delta);
    repeat split; intros; try done; try lra; try congruence.
Qed.

(** X14.  [build_feature_ratios] never raises, whatever the dimensions:
    each denominator is raised to at least 1e-6 first.  It returns the
    three ratios in a fixed order, each with delta = value - ideal, and
    each message is fixed by the delta; in particular the third message
    of a ratio is also given to deltas between 0.05 and the upper
    threshold, above the ideal. *)
Theorem build_feature_ratios_returns (d : FaceDimensions) :
  exists length_ratio forehead_to_jaw cheek_to_jaw : Ratio.t,
    build_feature_ratios d = Ok [length_ratio; forehead_to_jaw; cheek_to_jaw] /\
    Ratio.name length_ratio = "Face length vs. width" /\
    Ratio.name forehead_to_jaw = "Forehead vs. jaw width" /\
    Ratio.name cheek_to_jaw = "Cheekbone vs. jaw width" /\
    Ratio.value length_ratio = face_length d / Rmax (cheekbone_width d) 1e-6 /\
    Ratio.value forehead_to_jaw = forehead_width d / Rmax (jaw_width d) 1e-6 /\
    Ratio.value cheek_to_jaw = cheekbone_width d / Rmax (jaw_width d) 1e-6 /\
    Ratio.delta length_ratio = Ratio.value length_ratio - 1.33 /\
    Ratio.delta forehead_to_jaw = Ratio.value forehead_to_jaw - 1 /\
    Ratio.delta cheek_to_jaw = Ratio.value cheek_to_jaw - 1.05 /\
    ((Ratio.message length_ratio = "Elongated" <->
      Ratio.delta length_ratio > 0.15) /\
     (Ratio.message length_ratio = "Balanced" <->
      -0.05 < Ratio.delta length_ratio < 0.05) /\
     (Ratio.message length_ratio = "Softly wider" <->
      Ratio.delta length_ratio <= -0.05 \/
      0.05 <= Ratio.delta length_ratio <= 0.15)) /\
    ((Ratio.message forehead_to_jaw = "Stronger forehead" <->
      Ratio.delta forehead_to_jaw > 0.1) /\
     (Ratio.message forehead_to_jaw = "Even width" <->
      -0.05 < Ratio.delta forehead_to_jaw < 0.05) /\
     (Ratio.message forehead_to_jaw = "Defined jaw" <->
      Ratio.delta forehead_to_jaw <= -0.05 \/
      0.05 <= Ratio.delta forehead_to_jaw <= 0.1)) /\
    ((Ratio.message cheek_to_jaw = "Pronounced cheekbones" <->
      Ratio.delta cheek_to_jaw > 0.1) /\
     (Ratio.message cheek_to_jaw = "Balanced" <->
      -0.05 < Ratio.delta cheek_to_jaw < 0.05) /\
     (Ratio.message cheek_to_jaw = "Softer cheeks" <->
      Ratio.delta cheek_to_jaw <= -0.05 \/
      0.05 <= Ratio.delta cheek_to_jaw <= 0.1)).
Proof.
  unfold build_feature_ratios. cbv zeta. rewrite !guarded_div.
  cbn [mbind result_bind]. unfold add_ratio. cbn [app].
  do 3 eexists. split; [reflexivity |].
  cbn [Ratio.name Ratio.value Ratio.delta Ratio.message].
  rewrite !Py_max_Rmax.
  do 9 (split; [first [reflexivity | lra] |]).
  split; [| split].
  - apply (formatter_cases 0.15); [lra | done ..].
  - replace (forehead_width d / Rmax (jaw_width d) 1e-6 - 1)
      with (forehead_width d / Rmax (jaw_width d) 1e-6 - 1.0) by lra.
    apply (formatter_cases 0.1); [lra | done ..].
  - apply (formatter_cases 0.1); [lra | done ..].
Qed.

(** The two hexadecimal digits of a byte, and reading them back: checked
    on each of the 256 bytes. *)
Lemma format_02X_bytes :
  forallb
    (fun n : Z =>
       bool_decide
         (Hex.format_02X n =
          String (Hex.hex_digit (n / 16)) (String (Hex.hex_digit (n mod 16)) "") /\
          Hex.hex_byte_value (Hex.format_02X n) = Some n))
    (Z.of_nat <$> seq 0 256) = true.
Proof. by vm_compute. Qed.

Lemma format_02X_byte (n : Z) :
  (0 <= n <= 255)%Z ->
  Hex.format_02X n =
    String (Hex.hex_digit (n / 16)) (String (Hex.hex_digit (n mod 16)) "") /\
  Hex.hex_byte_value (Hex.format_02X n) = Some n.
Proof.
  intros Hn. pose proof format_02X_bytes as Hall.
  rewrite forallb_forall in Hall.
  assert (Hin : In n (Z.of_nat <$> seq 0 256)).
  { apply list_elem_of_In, list_elem_of_fmap. exists (Z.to_nat n).
    split; [lia |]. apply elem_of_seq. lia. }
  specialize (Hall n Hin). by apply bool_decide_eq_true in Hall.
Qed.

Lemma undertone_keywords_known (undertone : string) :
  undertone ∈ Spec.known_undertones <-> is_Some (undertone_keywords !! undertone).
Proof.
  unfold Spec.known_undertones, undertone_keywords. split.
  - intros Hin.
    repeat (apply elem_of_cons in Hin as [-> | Hin]; [by simplify_map_eq |]).
    by apply elem_of_nil in Hin.
  - intros [g Hg].
    repeat (apply lookup_insert_Some in Hg as [[<- _] | [_ Hg]]; [list_member |]).
    apply lookup_singleton_Some in Hg as [<- _]. list_member.
Qed.

Lemma finish_tips_known (undertone : string) :
  undertone ∈ Spec.known_undertones <-> is_Some (finish_tips !! undertone).
Proof.
  unfold Spec.known_undertones, finish_tips. split.
  - intros Hin.
    repeat (apply elem_of_cons in Hin as [-> | Hin]; [by simplify_map_eq |]).
    by apply elem_of_nil in Hin.
  - intros [g Hg].
    repeat (apply lookup_insert_Some in Hg as [[<- _] | [_ Hg]]; [list_member |]).
    apply lookup_singleton_Some in Hg as [<- _]. list_member.
Qed.

(** [build_tone_summary] returns on every input. *)
Lemma build_tone_summary_returns (tone undertone : string) (rgb : Z * Z * Z) :
  exists keywords tips,
    build_tone_summary tone undertone rgb =
    Ok {[ "hex" := Text ("#" +:+ Hex.format_02X rgb.1.1 +:+
                         Hex.format_02X rgb.1.2 +:+ Hex.format_02X rgb.2);
          "keywords" := Items keywords;
          "finish_tips" := Items tips ]} /\
    (undertone ∉ Spec.known_undertones ->
     undertone_keywords !! "neutral" = Some keywords /\
     finish_tips !! "neutral" = Some tips).
Proof.
  destruct rgb as [[r g] b]. unfold build_tone_summary. cbn [fst snd].
  assert (Hk : is_Some (undertone_keywords !! "neutral"))
    by (apply undertone_keywords_known; unfold Spec.known_undertones; list_member).
  assert (Ht : is_Some (finish_tips !! "neutral"))
    by (apply finish_tips_known; unfold Spec.known_undertones; list_member).
  destruct Hk as [nk Hk], Ht as [nt Ht].
  rewrite (dict_getitem_lookup _ _ _ Hk), (dict_getitem_lookup _ _ _ Ht).
  cbn [mbind result_bind]. do 2 eexists. split; [reflexivity |].
  intros Hnew. unfold Py.dict_get.
  destruct (undertone_keywords !! undertone) eqn:Hku.
  { exfalso. apply Hnew, undertone_keywords_known. eauto. }
  destruct (finish_tips !! undertone) eqn:Htu.
  { exfalso. apply Hnew, finish_tips_known. eauto. }
  done.
Qed.

Lemma dict_get_fallback {A} (d : gmap string A) (key fallback : string) (a : A) :
  d !! key = None -> d !! fallback = Some a ->
  Py.dict_get d key a = Py.dict_get d fallback a.
Proof. intros Hmiss Hhit. unfold Py.dict_get. by rewrite Hmiss, Hhit. Qed.

Lemma build_tone_summary_unknown (tone undertone : string) (rgb : Z * Z * Z) :
  undertone ∉ Spec.known_undertones ->
  build_tone_summary tone undertone rgb = build_tone_summary tone "neutral" rgb.
Proof.
  intros Hnew. destruct rgb as [[r g] b]. unfold build_tone_summary.
  assert (Hku : undertone_keywords !! undertone = None).
  { destruct (undertone_keywords !! undertone) eqn:Hk; [| done].
    exfalso. apply Hnew, undertone_keywords_known. eauto. }
  assert (Htu : finish_tips !! undertone = None).
  { destruct (finish_tips !! undertone) eqn:Ht; [| done].
    exfalso. apply Hnew, finish_tips_known. eauto. }
  unfold Py.dict_getitem.
  destruct (undertone_keywords !! "neutral") as [nk |] eqn:Hk; [| done].
  destruct (finish_tips !! "neutral") as [nt |] eqn:Ht; [| done].
  cbn [mbind result_bind].
  by rewrite (dict_get_fallback _ _ _ _ Hku Hk), (dict_get_fallback _ _ _ _ Htu Ht).
Qed.

(** The colour string of a colour made of bytes. *)
Lemma byte_color_hex (tone undertone : string) (r g b : Z) :
  (0 <= r <= 255)%Z -> (0 <= g <= 255)%Z -> (0 <= b <= 255)%Z ->
  exists summary hex,
    build_tone_summary tone undertone (r, g, b) = Ok summary /\
    summary !! "hex" = Some (Text hex) /\
    String.length hex = 7%nat /\
    Hex.hex_color_value hex = Some (r, g, b).
Proof.
  intros Hr Hg Hb.
  destruct (build_tone_summary_returns tone undertone (r, g, b))
    as (keywords & tips & Hrun & _).
  destruct (format_02X_byte r Hr) as [Fr Vr].
  destruct (format_02X_byte g Hg) as [Fg Vg].
  destruct (format_02X_byte b Hb) as [Fb Vb].
  do 2 eexists. split; [exact Hrun |].
  split; [by simplify_map_eq |]. cbn [fst snd].
  rewrite Fr, Fg, Fb in *. split; [reflexivity |].
  cbv [String.append Hex.hex_color_value]. rewrite Vr, Vg, Vb. reflexivity.
Qed.

(** X15.  For a colour whose three channels are bytes the summary holds,
    under "hex", a string of seven characters that reads back as that
    colour, so different colours get different strings; the summary has
    exactly the keys "hex", "keywords" and "finish_tips", and an unknown
    undertone gets the lists of "neutral". *)
Theorem build_tone_summary_hex (tone undertone : string) (r g b : Z) :
  (0 <= r <= 255)%Z -> (0 <= g <= 255)%Z -> (0 <= b <= 255)%Z ->
  exists summary hex,
    build_tone_summary tone undertone (r, g, b) = Ok summary /\
    dom summary = ({[ "hex"; "keywords"; "finish_tips" ]} : gset string) /\
    summary !! "hex" = Some (Text hex) /\
    String.length hex = 7%nat /\
    Hex.hex_color_value hex = Some (r, g, b) /\
    (undertone ∉ Spec.known_undertones ->
     build_tone_summary tone undertone (r, g, b) =
     build_tone_summary tone "neutral" (r, g, b)).
Proof.
  intros Hr Hg Hb.
  destruct (build_tone_summary_returns tone undertone (r, g, b))
    as (keywords & tips & Hrun & Hunknown).
  destruct (format_02X_byte r Hr) as [Fr Vr].
  destruct (format_02X_byte g Hg) as [Fg Vg].
  destruct (format_02X_byte b Hb) as [Fb Vb].
  do 2 eexists. split; [exact Hrun |].
  split; [rewrite !dom_insert_L, dom_singleton_L; set_solver |].
  split; [by simplify_map_eq |]. cbn [fst snd].
  rewrite Fr, Fg, Fb in *. split; [reflexivity |]. split.
  - cbv [String.append Hex.hex_color_value]. rewrite Vr, Vg, Vb. reflexivity.
  - apply build_tone_summary_unknown.
Qed.

Lemma build_tone_summary_hex_witness :
  exists summary hex,
    build_tone_summary "medium" "warm" (220, 180, 160)%Z = Ok summary /\
    dom summary = ({[ "hex"; "keywords"; "finish_tips" ]} : gset string) /\
    summary !! "hex" = Some (Text hex) /\
    String.length hex = 7%nat /\
    Hex.hex_color_value hex = Some (220, 180, 160)%Z /\
    ("warm" ∉ Spec.known_undertones ->
     build_tone_summary "medium" "warm" (220, 180, 160)%Z =
     build_tone_summary "medium" "neutral" (220, 180, 160)%Z).
Proof.
  apply (build_tone_summary_hex "medium" "warm" 220 180 160); lia.
Defined.

Lemma compute_symmetry_bounds (points : list Point) (box : R * R * R * R) :
  0 <= score (compute_symmetry points box) <= 1 /\
  0 <= eye_delta (compute_symmetry points box) < 90.
Proof.
  destruct box as [[[min_x min_y] max_x] max_y].
  unfold compute_symmetry. cbv zeta. cbn [score eye_delta]. split.
  - match goal with
    | |- context [Py.min 1.0 ?x] =>
        destruct (inverted_clamp_bounds x) as [Hb | Hneg]; [exact Hb |]
    end.
    exfalso.
    match type of Hneg with
    | Py.abs (?l - ?r) / _ < 0 =>
        pose proof (balance_delta_bounds l r (norm_nonneg _) (norm_nonneg _))
    end.
    lra.
  - apply degrees_bounds, arctan2_first_quadrant; [apply Rabs_pos |].
    pose proof (guarded_denominator (max_x - min_x)). lra.
Qed.

Lemma compute_jaw_definition_bounds (d : FaceDimensions) :
  0.5 <= compute_jaw_definition d <= 1.
Proof.
  unfold compute_jaw_definition. cbv zeta.
  pose proof (unit_clamp_bounds
                ((jaw_angle d - Np.radians 25) / Np.radians 25)) as Hn.
  set (normalized := Py.max 0.0 _) in *.
  unfold Py.abs, Rabs. destruct (Rcase_abs _); lra.
Qed.

Lemma build_feature_ratios_three (d : FaceDimensions) :
  exists ratios, build_feature_ratios d = Ok ratios /\ length ratios = 3%nat.
Proof.
  unfold build_feature_ratios. cbv zeta. rewrite !guarded_div.
  cbn [mbind result_bind]. by eexists.
Qed.

(** What [build_insights] returns: it never raises, and the four scores
    are within their ranges. *)
Lemma build_insights_returns (points : list Point) (box : R * R * R * R)
  (d : FaceDimensions) (skin_tone : string * string * (Z * Z * Z))
  (shape : string) :
  exists insights,
    build_insights points box d skin_tone shape = Ok insights /\
    0 <= Insights.symmetry_score insights <= 1 /\
    0 <= Insights.eye_alignment_difference insights < 90 /\
    0 <= Insights.brow_balance_score insights <= 1 /\
    0.5 <= Insights.jaw_definition_score insights <= 1 /\
    length (Insights.feature_ratios insights) = 3%nat /\
    dom (Insights.tone_summary insights) =
      ({[ "hex"; "keywords"; "finish_tips" ]} : gset string) /\
    Insights.face_shape insights = shape /\
    build_tone_summary skin_tone.1.1 skin_tone.1.2 skin_tone.2
      = Ok (Insights.tone_summary insights).
Proof.
  pose proof (compute_symmetry_bounds points box) as [Hscore Heye].
  destruct (build_feature_ratios_three d) as (ratios & Hratios & Hthree).
  destruct (build_tone_summary_returns skin_tone.1.1 skin_tone.1.2 skin_tone.2)
    as (keywords & tips & Hsummary & _).
  destruct box as [[[min_x min_y] max_x] max_y].
  destruct (compute_brow_balance_returns points (Py.max (max_y - min_y) 1e-6))
    as (brow & Hbrow & Hbrow_range).
  unfold build_insights. cbv zeta.
  rewrite Hratios. cbn [mbind result_bind].
  rewrite Hsummary. cbn [mbind result_bind].
  rewrite Hbrow. cbn [mbind result_bind].
  eexists. split; [reflexivity |].
  cbn [Insights.symmetry_score Insights.eye_alignment_difference
       Insights.brow_balance_score Insights.jaw_definition_score
       Insights.feature_ratios Insights.tone_summary Insights.face_shape].
  split; [exact Hscore |]. split; [exact Heye |]. split; [exact Hbrow_range |].
  split; [apply compute_jaw_definition_bounds |]. split; [exact Hthree |].
  split; [| split; reflexivity].
  rewrite !dom_insert_L, dom_singleton_L. set_solver.
Qed.

(** X16.  [build_insights] returns on every input, whatever the landmark
    list, the box, the dimensions and the colour: the symmetry and brow
    scores lie in [0, 1], the jaw score in [0.5, 1], the eye-alignment
    difference in [0, 90) degrees, there are three feature ratios, the
    tone summary has its three keys, and the shape is passed through. *)
Theorem build_insights_scores (points : list Point) (box : R * R * R * R)
  (d : FaceDimensions) (skin_tone : string * string * (Z * Z * Z))
  (shape : string) :
  exists insights,
    build_insights points box d skin_tone shape = Ok insights /\
    0 <= Insights.symmetry_score insights <= 1 /\
    0 <= Insights.eye_alignment_difference insights < 90 /\
    0 <= Insights.brow_balance_score insights <= 1 /\
    0.5 <= Insights.jaw_definition_score insights <= 1 /\
    length (Insights.feature_ratios insights) = 3%nat /\
    dom (Insights.tone_summary insights) =
      ({[ "hex"; "keywords"; "finish_tips" ]} : gset string) /\
    Insights.face_shape insights = shape.
Proof.
  destruct (build_insights_returns points box d skin_tone shape)
    as (insights & Hrun & Hsym & Heye & Hbrow & Hjaw & Hratios & Hdom & Hshape & _).
  by exists insights.
Qed.

(* ===================================================================== *)
(** ** Beyond the specification: the pipeline and its caller             *)
(* ===================================================================== *)

Lemma analyze_skin_tone_outcomes
  (fillConvexPoly : Mask -> list (Z * Z) -> Z -> Mask)
  (image : Image) (points : list Point) :
  (227 < length points)%nat ->
  match analyze_skin_tone fillConvexPoly image points with
  | Ok (tone, undertone, _) =>
      tone ∈ ["very_light"; "light"; "medium"; "tan"; "deep"] /\
      undertone ∈ ["cool"; "warm"; "neutral"]
  | Raise e => e = insufficient_sample
  end.
Proof.
  intros Hlen.
  destruct (cheek_points_lookup points (cheek_indices_bound points Hlen))
    as (cheek_points & _ & Hget).
  rewrite (analyze_skin_tone_unfold _ _ _ _ Hget). cbv zeta.
  destruct (boolean_index _ _) as [| p rest]; [reflexivity |].
  destruct (mean_axis0 (p :: rest)) as [[r g] b]. unfold skin_tone_of_average.
  split; [apply tone_of_ita_known | apply undertone_of_lab_known].
Qed.

Lemma zones_for_dom (min_x min_y max_x max_y : R) (shape : string) :
  dom (zones_for min_x min_y max_x max_y shape)
  = ({[ "contour"; "blush"; "highlight" ]} : gset string).
Proof.
  destruct (zones_for_layout min_x min_y max_x max_y shape)
    as (c1 & c2 & c3 & b1 & b2 & b3 & h1 & h2 & h3 & ->).
  rewrite !dom_insert_L, dom_singleton_L. set_solver.
Qed.

Lemma build_recommendations_dom (shape undertone : string) :
  exists recs,
    build_recommendations shape undertone = Ok recs /\
    dom recs = Spec.categories.
Proof.
  destruct (build_recommendations_returns shape) as (bd & cd & hd & Hret).
  destruct (Hret undertone) as (bs & es & ls & Hrun).
  eexists. split; [exact Hrun |].
  unfold Spec.categories. rewrite !dom_insert_L, dom_singleton_L. set_solver.
Qed.

Section PipelineFacts.
Variable Image_open : string -> result Image.
Variable FaceMesh_process : Image -> list (list (R * R)).
Variable fillConvexPoly : Mask -> list (Z * Z) -> Z -> Mask.

(** The run of [analyze_image] once the decoder has returned and the
    detector has found a face of at least 468 landmarks: every stage but
    the skin-tone analyzer returns, and the analyzer decides between a
    report and the insufficient-sample error. *)
Lemma analyze_image_run (image_bytes : string) (np_image : Image)
  (landmarks : list (R * R)) (others : list (list (R * R))) :
  Image_open image_bytes = Ok np_image ->
  FaceMesh_process np_image = landmarks :: others ->
  (468 <= length landmarks)%nat ->
  let points :=
    (fun lm : R * R =>
       (lm.1 * INR (width np_image), lm.2 * INR (height np_image)))
    <$> landmarks in
  match analyze_image Image_open FaceMesh_process fillConvexPoly image_bytes with
  | Ok report =>
      Report_well_formed report /\
      analyze_skin_tone fillConvexPoly np_image points =
        Ok (Report.skin_tone report, Report.undertone report,
            Report.skin_sample_rgb report) /\
      build_tone_summary (Report.skin_tone report) (Report.undertone report)
        (Report.skin_sample_rgb report)
        = Ok (Insights.tone_summary (Report.insights report))
  | Raise e =>
      e = insufficient_sample /\
      analyze_skin_tone fillConvexPoly np_image points = Raise insufficient_sample
  end.
Proof using Type.
  intros Hopen Hfaces Hlen points.
  assert (Hpoints : length points = length landmarks)
    by (unfold points; by rewrite length_fmap).
  assert (Hne : points <> []).
  { intros Hnil. rewrite Hnil in Hpoints. simpl in Hpoints. lia. }
  destruct (calculate_dimensions_measured points) as (d & Hd & Hd_ok).
  { apply dimension_indices_bound. unfold Point in *. lia. }
  destruct (classify_face_known d Hd_ok) as (shape & Hshape & Hknown).
  assert (Hcheek : (227 < length points)%nat) by (unfold Point in *; lia).
  pose proof (analyze_skin_tone_outcomes fillConvexPoly np_image points Hcheek)
    as Hskin.
  destruct (generate_overlay_returns shape points Hne)
    as (min_x & min_y & max_x & max_y & Hoverlay & Hbox).
  unfold analyze_image. rewrite Hopen. cbn [mbind result_bind]. cbv zeta.
  rewrite Hfaces. fold points. rewrite Hd. cbn [mbind result_bind].
  rewrite Hshape. cbn [mbind result_bind].
  destruct (analyze_skin_tone fillConvexPoly np_image points)
    as [[[tone undertone] sample] | e]; cbn [mbind result_bind];
    [| by destruct Hskin].
  destruct Hskin as [Htone Hundertone].
  rewrite Hoverlay. cbn [mbind result_bind bounding_box].
  destruct (build_recommendations_dom shape undertone) as (recs & Hrecs & Hdom).
  rewrite Hrecs. cbn [mbind result_bind].
  destruct (build_insights_returns points (min_x, min_y, max_x, max_y) d
              (tone, undertone, sample) shape)
    as (insights & Hins & Hsym & Heye & Hbrow & Hjaw & Hratios & _ & Hpass
        & Hsummary).
  rewrite Hins. cbn [mbind result_bind].
  split; [| split; [reflexivity | exact Hsummary]].
  unfold Report_well_formed.
  cbn [Report.dimensions Report.face_shape Report.skin_tone Report.undertone
       Report.overlay Report.recommendations Report.insights
       bounding_box zones].
  split_and!; try done; try lra.
  - destruct points as [| p0 rest]; [done |].
    destruct (Hbox p0) as [Hx _]; [apply list_elem_of_here |]. lra.
  - destruct points as [| p0 rest]; [done |].
    destruct (Hbox p0) as [_ Hy]; [apply list_elem_of_here |]. lra.
  - apply zones_for_dom.
Qed.
End PipelineFacts.

Lemma FaceDimensionsModel_accepts_ok (d : FaceDimensions) :
  Spec.FaceDimensions_ok d -> FaceDimensionsModel_accepts d = true.
Proof.
  intros (Hf & Hc & Hj & Hl & Ha & _). unfold FaceDimensionsModel_accepts.
  rewrite !bool_decide_eq_true_2 by lra. reflexivity.
Qed.

Lemma validate_rgb_bytes (red green blue : Z) :
  (0 <= red <= 255)%Z -> (0 <= green <= 255)%Z -> (0 <= blue <= 255)%Z ->
  validate_rgb [red; green; blue] = Ok [red; green; blue].
Proof.
  intros Hr Hg Hb. unfold validate_rgb. cbn [length check_channels].
  rewrite bool_decide_eq_false_2 by lia.
  replace (0 <=? red)%Z with true by lia. replace (red <=? 255)%Z with true by lia.
  replace (0 <=? green)%Z with true by lia.
  replace (green <=? 255)%Z with true by lia.
  replace (0 <=? blue)%Z with true by lia.
  replace (blue <=? 255)%Z with true by lia.
  reflexivity.
Qed.

Lemma sample_face_length : length sample_face = 468%nat.
Proof. unfold sample_face. by rewrite length_fmap, length_seq. Qed.

Lemma sample_detector_contract (image : Image) (face : list (R * R)) :
  face ∈ sample_detector image -> (468 <= length face)%nat.
Proof.
  unfold sample_detector. intros Hface.
  apply list_elem_of_singleton in Hface as ->. by rewrite sample_face_length.
Qed.

(** X17.  When the decoder returns and every face the detector reports
    has at least 468 landmarks, [analyze_image] has three outcomes only:
    the no-face [ValueError] when no face is reported, the
    insufficient-sample [ValueError] of the skin-tone analyzer, or a
    report that satisfies the report invariants.  No [IndexError],
    [ZeroDivisionError] or [KeyError] escapes. *)
Theorem analyze_image_outcomes
  (Image_open : string -> result Image)
  (FaceMesh_process : Image -> list (list (R * R)))
  (fillConvexPoly : Mask -> list (Z * Z) -> Z -> Mask)
  (image_bytes : string) (np_image : Image) :
  Image_open image_bytes = Ok np_image ->
  (forall face, face ∈ FaceMesh_process np_image -> (468 <= length face)%nat) ->
  match analyze_image Image_open FaceMesh_process fillConvexPoly image_bytes with
  | Ok report => FaceMesh_process np_image <> [] /\ Report_well_formed report
  | Raise e =>
      e = no_face_detected /\ FaceMesh_process np_image = [] \/
      e = insufficient_sample /\ FaceMesh_process np_image <> []
  end.
Proof.
  intros Hopen Hcontract.
  destruct (FaceMesh_process np_image) as [| landmarks others] eqn:Hfaces.
  - unfold analyze_image. rewrite Hopen. cbn [mbind result_bind]. cbv zeta.
    rewrite Hfaces. by left.
  - pose proof (analyze_image_run Image_open FaceMesh_process fillConvexPoly
                  image_bytes np_image landmarks others Hopen Hfaces
                  (Hcontract landmarks (list_elem_of_here _ _))) as Hrun.
    cbv zeta in Hrun.
    destruct (analyze_image _ _ _ _) as [report | e].
    + by destruct Hrun.
    + right. by destruct Hrun.
Qed.

Lemma analyze_image_outcomes_witness :
  sample_decoder "" = Ok Spec.sample_image /\
  match analyze_image sample_decoder sample_detector Spec.fill_everything "" with
  | Ok report =>
      sample_detector Spec.sample_image <> [] /\ Report_well_formed report
  | Raise e =>
      e = no_face_detected /\ sample_detector Spec.sample_image = [] \/
      e = insufficient_sample /\ sample_detector Spec.sample_image <> []
  end.
Proof.
  split; [reflexivity |].
  exact (analyze_image_outcomes sample_decoder sample_detector
           Spec.fill_everything "" Spec.sample_image eq_refl
           (sample_detector_contract Spec.sample_image)).
Defined.

(** X18.  A report computed from an image of bytes can be stored: its
    dimensions pass the [ge=0] constraints of [FaceDimensionsModel], its
    sample colour passes [validate_rgb] and its bounding box passes
    [validate_bounding_box]. *)
Theorem analyze_image_report_storable
  (Image_open : string -> result Image)
  (FaceMesh_process : Image -> list (list (R * R)))
  (fillConvexPoly : Mask -> list (Z * Z) -> Z -> Mask)
  (image_bytes : string) (np_image : Image) :
  Image_open image_bytes = Ok np_image ->
  uint8_image np_image ->
  (forall face, face ∈ FaceMesh_process np_image -> (468 <= length face)%nat) ->
  match analyze_image Image_open FaceMesh_process fillConvexPoly image_bytes with
  | Ok report => Report_storable report
  | Raise _ => True
  end.
Proof.
  intros Hopen Himg Hcontract.
  destruct (FaceMesh_process np_image) as [| landmarks others] eqn:Hfaces.
  { unfold analyze_image. rewrite Hopen. cbn [mbind result_bind]. cbv zeta.
    by rewrite Hfaces. }
  pose proof (analyze_image_run Image_open FaceMesh_process fillConvexPoly
                image_bytes np_image landmarks others Hopen Hfaces
                (Hcontract landmarks (list_elem_of_here _ _))) as Hrun.
  cbv zeta in Hrun.
  destruct (analyze_image _ _ _ _) as [report | e]; [| done].
  destruct Hrun as ((Hdims & _) & Hskin & _).
  destruct (analyze_skin_tone_well_formed _ _ _ _ _ _ Himg Hskin)
    as (_ & _ & Hr & Hg & Hb).
  unfold Report_storable.
  destruct (Report.skin_sample_rgb report) as [[red green] blue].
  destruct (bounding_box (Report.overlay report)) as [[[min_x min_y] max_x] max_y].
  split; [by apply FaceDimensionsModel_accepts_ok |].
  split; [by apply validate_rgb_bytes | reflexivity].
Qed.

Lemma analyze_image_report_storable_witness :
  sample_decoder "" = Ok Spec.sample_image /\
  uint8_image Spec.sample_image /\
  match analyze_image sample_decoder sample_detector Spec.fill_everything "" with
  | Ok report => Report_storable report
  | Raise _ => True
  end.
Proof.
  split; [reflexivity |]. split; [exact sample_image_uint8 |].
  exact (analyze_image_report_storable sample_decoder sample_detector
           Spec.fill_everything "" Spec.sample_image eq_refl
           sample_image_uint8 (sample_detector_contract Spec.sample_image)).
Defined.

(** X19.  Under the same two conditions the /analyze route never answers
    500: it answers 400 when the upload is not declared as an image, 422
    with the message of one of the two [ValueError]s, or the report. *)
Theorem analyze_route_responses
  (Image_open : string -> result Image)
  (FaceMesh_process : Image -> list (list (R * R)))
  (fillConvexPoly : Mask -> list (Z * Z) -> Z -> Mask)
  (file : UploadFile) (np_image : Image) :
  Image_open (read file) = Ok np_image ->
  (forall face, face ∈ FaceMesh_process np_image -> (468 <= length face)%nat) ->
  match analyze Image_open FaceMesh_process fillConvexPoly file with
  | JSONResponse report => Report_well_formed report
  | HTTPException status_code detail =>
      status_code = 400%nat /\
      detail = "Invalid file type. Please upload an image." /\
      (forall ct, content_type file = Some ct ->
                  ct = "" \/ String.prefix "image/" ct = false)
      \/
      status_code = 422%nat /\
      (detail = "No face detected. Please retake the selfie with better lighting." \/
       detail = "Insufficient data for skin tone analysis. Try again.")
  end.
Proof.
  intros Hopen Hcontract.
  assert (Hrun :
    match analyze_image Image_open FaceMesh_process fillConvexPoly (read file) with
    | Ok report => Report_well_formed report
    | Raise e => e = no_face_detected \/ e = insufficient_sample
    end).
  { destruct (FaceMesh_process np_image) as [| landmarks others] eqn:Hfaces.
    - unfold analyze_image. rewrite Hopen. cbn [mbind result_bind]. cbv zeta.
      rewrite Hfaces. by left.
    - pose proof (analyze_image_run Image_open FaceMesh_process fillConvexPoly
                    (read file) np_image landmarks others Hopen Hfaces
                    (Hcontract landmarks (list_elem_of_here _ _))) as Hrun.
      cbv zeta in Hrun.
      destruct (analyze_image _ _ _ _) as [report | e];
        [by destruct Hrun | right; by destruct Hrun]. }
  unfold analyze. cbv zeta.
  destruct (content_type file) as [ct |] eqn:Hct.
  2:{ cbn. left. split; [done |]. split; [done |]. by intros ct' [=]. }
  case_bool_decide as Hempty; cbn [andb negb].
  2:{ left. split; [done |]. split; [done |]. intros ct' [= <-]. left.
      by destruct (decide (ct = "")). }
  destruct (String.prefix "image/" ct) eqn:Hprefix; cbn [negb].
  2:{ left. split; [done |]. split; [done |]. intros ct' [= <-]. by right. }
  destruct (analyze_image _ _ _ _) as [report | e]; cbn beta iota in Hrun |- *;
    [exact Hrun |].
  destruct Hrun as [-> | ->];
    unfold no_face_detected, insufficient_sample; cbn beta iota;
    right; split; auto.
Qed.

Lemma analyze_route_responses_witness :
  sample_decoder (read sample_upload) = Ok Spec.sample_image /\
  match analyze sample_decoder sample_detector Spec.fill_everything
          sample_upload with
  | JSONResponse report => Report_well_formed report
  | HTTPException status_code detail =>
      status_code = 400%nat /\
      detail = "Invalid file type. Please upload an image." /\
      (forall ct, content_type sample_upload = Some ct ->
                  ct = "" \/ String.prefix "image/" ct = false)
      \/
      status_code = 422%nat /\
      (detail = "No face detected. Please retake the selfie with better lighting." \/
       detail = "Insufficient data for skin tone analysis. Try again.")
  end.
Proof.
  split; [reflexivity |].
  exact (analyze_route_responses sample_decoder sample_detector
           Spec.fill_everything sample_upload Spec.sample_image eq_refl
           (sample_detector_contract Spec.sample_image)).
Defined.

(** X20.  In a report computed from an image of bytes the colour string
    of the tone summary has seven characters and reads back as the sample
    colour of the report: the two fields never disagree. *)
Theorem analyze_image_hex_matches_sample
  (Image_open : string -> result Image)
  (FaceMesh_process : Image -> list (list (R * R)))
  (fillConvexPoly : Mask -> list (Z * Z) -> Z -> Mask)
  (image_bytes : string) (np_image : Image) :
  Image_open image_bytes = Ok np_image ->
  uint8_image np_image ->
  (forall face, face ∈ FaceMesh_process np_image -> (468 <= length face)%nat) ->
  match analyze_image Image_open FaceMesh_process fillConvexPoly image_bytes with
  | Ok report =>
      exists hex,
        Insights.tone_summary (Report.insights report) !! "hex" = Some (Text hex) /\
        String.length hex = 7%nat /\
        Hex.hex_color_value hex = Some (Report.skin_sample_rgb report)
  | Raise _ => True
  end.
Proof.
  intros Hopen Himg Hcontract.
  destruct (FaceMesh_process np_image) as [| landmarks others] eqn:Hfaces.
  { unfold analyze_image. rewrite Hopen. cbn [mbind result_bind]. cbv zeta.
    by rewrite Hfaces. }
  pose proof (analyze_image_run Image_open FaceMesh_process fillConvexPoly
                image_bytes np_image landmarks others Hopen Hfaces
                (Hcontract landmarks (list_elem_of_here _ _))) as Hrun.
  cbv zeta in Hrun.
  destruct (analyze_image _ _ _ _) as [report | e]; [| done].
  destruct Hrun as (_ & Hskin & Hsummary).
  destruct (analyze_skin_tone_well_formed _ _ _ _ _ _ Himg Hskin)
    as (_ & _ & Hr & Hg & Hb).
  destruct (Report.skin_sample_rgb report) as [[red green] blue].
  cbn [fst snd] in Hr, Hg, Hb.
  destruct (byte_color_hex (Report.skin_tone report) (Report.undertone report)
              red green blue Hr Hg Hb)
    as (summary & hex & Hrun & Hhex & Hlen & Hvalue).
  rewrite Hrun in Hsummary. injection Hsummary as <-. by exists hex.
Qed.

Lemma analyze_image_hex_matches_sample_witness :
  sample_decoder "" = Ok Spec.sample_image /\
  uint8_image Spec.sample_image /\
  match analyze_image sample_decoder sample_detector Spec.fill_everything "" with
  | Ok report =>
      exists hex,
        Insights.tone_summary (Report.insights report) !! "hex" = Some (Text hex) /\
        String.length hex = 7%nat /\
        Hex.hex_color_value hex = Some (Report.skin_sample_rgb report)
  | Raise _ => True
  end.
Proof.
  split; [reflexivity |]. split; [exact sample_image_uint8 |].
  exact (analyze_image_hex_matches_sample sample_decoder sample_detector
           Spec.fill_everything "" Spec.sample_image eq_refl
           sample_image_uint8 (sample_detector_contract Spec.sample_image)).
Defined.
